(** * easyrqst: a shallow embedding of httpmaker.go

    The development follows the Go source: the runtime values the code
    manipulates, the library calls it makes (as effects answered by the
    environment, or as parameters when they are pure), then
    [prepareRequest], [executeRequest] and the three public calls, and
    finally the properties of the request builder and of the cache
    glue. *)

From Stdlib Require Import ZArith String Ascii List Lia.
From Stdlib.Strings Require Import Byte.
From stdpp Require Import base option list strings gmap pretty.

Local Open Scope string_scope.

#[local] Set Warnings "-register-all".

(** ** Go runtime values *)

(** A Go [error] is kept as its message. *)
Definition error : Type := string.

(** The [(T, error)] pair returned by calls whose value is only meaningful
    when the error is nil. *)
Inductive Result (A : Type) : Type :=
| Ok (a : A)
| Err (e : error).
Arguments Ok {A} a.
Arguments Err {A} e.

(** What a call does: it returns, or it panics (a nil dereference). *)
Inductive Outcome (A : Type) : Type :=
| Returned (a : A)
| Panicked (msg : string).
Arguments Returned {A} a.
Arguments Panicked {A} msg.

(** [type HttpResponse struct]: [method] and [cacheKey] are unexported,
    [Body] is a byte slice and may be nil. *)
Record HttpResponse : Type := mkHttpResponse {
  method : string;
  cacheKey : string;
  FromCache : bool;
  StatusCode : Z;
  Body : option (list byte)
}.

(** The zero value of the struct. *)
Definition zeroHttpResponse : HttpResponse :=
  mkHttpResponse "" "" false 0%Z None.

(** Values that travel in an [any]: payloads and cached values. A
    [map[string]interface{}] is kept as the list of its entries in the
    order a [range] visits them. [VFunc] stands for the values
    encoding/json refuses (functions, channels). *)
Inductive GoValue : Type :=
| VNil
| VBool (b : bool)
| VInt (n : Z)
| VString (s : string)
| VBytes (b : option (list byte))
| VMapStrStr (m : gmap string string)
| VMapStrAny (m : list (string * GoValue))
| VSlice (l : list GoValue)
| VHttpResponse (p : option HttpResponse)
| VFunc.

(** ** Handles of the collaborators *)

(** An [ICacheFn] value, an [*http.Client], an open [*os.File] and a
    response body stream are known by their identity only. *)
Definition ICacheFn : Type := nat.
Definition Client : Type := nat.
Definition File : Type := nat.
Definition BodyStream : Type := nat.

Module url.
(** [url.Values]. *)
Abbreviation Values := (gmap string (list string)).

Record URL : Type := mkURL {
  Scheme : string;
  Host : string;
  Path : string;
  RawQuery : string
}.

(** [Values.Set] and [Values.Add]. *)
Definition Set_ (v : Values) (key value : string) : Values :=
  <[key := [value]]> v.

Definition Add (v : Values) (key value : string) : Values :=
  <[key := (default [] (v !! key) ++ [value])%list]> v.
End url.

Module strings.
(** [strings.LastIndex(s, sep)] for a separator of one byte: the index
    of its last occurrence, [-1] when there is none. *)
Fixpoint LastIndexByte (s : string) (c : ascii) : Z :=
  match s with
  | EmptyString => -1
  | String a s' =>
      let i := LastIndexByte s' c in
      if (0 <=? i)%Z then (i + 1)%Z
      else if Ascii.eqb a c then 0%Z else (-1)%Z
  end.

(** [strings.TrimSuffix]. *)
Definition TrimSuffix (s suffix : string) : string :=
  let n := (String.length s - String.length suffix)%nat in
  if (String.length suffix <=? String.length s)%nat
     && String.eqb (substring n (String.length suffix) s) suffix
  then substring 0 n s
  else s.
End strings.

Module http.
(** [hasPort] and [removeEmptyPort] of net/http: a host written
    [name:] loses its colon. *)
Definition hasPort (s : string) : bool :=
  (strings.LastIndexByte s "]" <? strings.LastIndexByte s ":")%Z.

Definition removeEmptyPort (host : string) : string :=
  if hasPort host then strings.TrimSuffix host ":" else host.

(** [http.Request], with its [Header] a map from canonical keys to the
    values added under them. *)
Record Request : Type := mkRequest {
  Method : string;
  URL : url.URL;
  Header : gmap string (list string);
  Body : option (list byte)
}.

Record Response : Type := mkResponse {
  StatusCode : Z;
  RespBody : BodyStream
}.

Definition StatusOK : Z := 200.
Definition StatusCreated : Z := 201.
Definition MethodGet : string := "GET".
Definition MethodPost : string := "POST".
End http.

(** The logger stored in the client is an [interface{}]; the code only
    asks which of the two retryablehttp logger interfaces it satisfies. *)
Inductive Logger : Type :=
| NoLogger
| LeveledLogger (l : nat)
| PrintfLogger (l : nat)
| OtherLogger.

(** ** Effects

    Every call that leaves the package and touches the outside world is
    an effect: the program stops, the environment answers. *)
Inductive Eff : Type -> Type :=
| TimeNow : Eff Z
| TimeSince (start : Z) : Eff Z
| LogDebug (l : nat) (url_ method_ : string) (elapsed : Z) : Eff unit
| LogPrintf (l : nat) (url_ method_ : string) (elapsed : Z) : Eff unit
| CacheGet (c : ICacheFn) (key : string) : Eff (GoValue * option error)
| CacheSet (c : ICacheFn) (key : string) (value : GoValue) (expiry : Z)
    : Eff (GoValue * option error)
| ClientDo (c : Client) (req : http.Request) : Eff (Result http.Response)
| ReadAll (b : BodyStream) : Eff (list byte * option error)
| BodyClose (b : BodyStream) : Eff unit
| RandomBoundary : Eff string
| OsOpen (path : string) : Eff (Result File)
| IoCopy (f : File) : Eff (Result (list byte))
| FileClose (f : File) : Eff unit.

(** Programs: a result, or an effect and what to do with its answer. *)
Inductive Prog (R : Type) : Type :=
| Ret (r : R)
| Vis {X : Type} (e : Eff X) (k : X -> Prog R).
Arguments Ret {R} r.
Arguments Vis {R X} e k.

Fixpoint bind {A B : Type} (p : Prog A) (f : A -> Prog B) : Prog B :=
  match p with
  | Ret a => f a
  | Vis e k => Vis e (fun x => bind (k x) f)
  end.

Definition trigger {X : Type} (e : Eff X) : Prog X := Vis e Ret.

Declare Scope prog_scope.
Delimit Scope prog_scope with prog.
Notation "x <- c ;; k" := (bind c (fun x => k))
  (at level 100, c at next level, right associativity) : prog_scope.
Notation "c ;;; k" := (bind c (fun _ => k))
  (at level 100, right associativity) : prog_scope.

(** One effect of a run together with the answer it received. *)
Inductive Entry : Type :=
| E {X : Type} (e : Eff X) (x : X).

Abbreviation Trace := (list Entry).

(** [exec p t r]: some environment makes [p] perform exactly the effects
    of [t], with the answers recorded there, and return [r]. *)
Fixpoint exec {R : Type} (p : Prog R) (t : Trace) (r : R) : Prop :=
  match p with
  | Ret r' => t = [] /\ r = r'
  | Vis e k => exists x t', t = E e x :: t' /\ exec (k x) t' r
  end.

(** An environment with a state of its own answers every effect. *)
Record World : Type := mkWorld {
  St : Type;
  answer : forall X : Type, Eff X -> St -> X * St
}.

Fixpoint run (W : World) {R : Type} (p : Prog R) (s : St W)
  : R * Trace * St W :=
  match p with
  | Ret r => (r, [], s)
  | Vis e k =>
      let '(x, s1) := answer W _ e s in
      let '(r, t, s2) := run W (k x) s1 in
      (r, E e x :: t, s2)
  end.

(** ** Observations on traces *)

Definition isDo (en : Entry) : bool :=
  match en with
  | E (ClientDo _ _) _ => true
  | _ => false
  end.

(** The store operations of a trace: capability, key, value, ttl. *)
Definition asSet (en : Entry) : option (ICacheFn * string * GoValue * Z) :=
  match en with
  | E (CacheSet c key v ttl) _ => Some (c, key, v, ttl)
  | _ => None
  end.

Definition stores (t : Trace) : list (ICacheFn * string * GoValue * Z) :=
  omap asSet t.

(** The lookups of a trace: capability and key. *)
Definition asGet (en : Entry) : option (ICacheFn * string) :=
  match en with
  | E (CacheGet c key) _ => Some (c, key)
  | _ => None
  end.

Definition lookups (t : Trace) : list (ICacheFn * string) :=
  omap asGet t.

Definition doCount (t : Trace) : nat := length (filter (fun en => isDo en = true) t).

(** ** encoding/base64, the standard padded encoding

    encoding/json writes a [[]byte] as a base64 string and reads it back
    the same way. *)
Module base64.
Definition byteN (n : N) : byte := default x00 (Byte.of_N (n mod 256)).

(** The sixty-four digits [A-Z a-z 0-9 + /]. *)
Definition enc (n : N) : ascii :=
  if (n <? 26)%N then ascii_of_N (65 + n)
  else if (n <? 52)%N then ascii_of_N (97 + (n - 26))
  else if (n <? 62)%N then ascii_of_N (48 + (n - 52))
  else if (n =? 62)%N then "+"%char
  else "/"%char.

Definition dec (c : ascii) : option N :=
  let n := N_of_ascii c in
  if ((65 <=? n) && (n <=? 90))%N then Some (n - 65)%N
  else if ((97 <=? n) && (n <=? 122))%N then Some (n - 97 + 26)%N
  else if ((48 <=? n) && (n <=? 57))%N then Some (n - 48 + 52)%N
  else if (n =? 43)%N then Some 62%N
  else if (n =? 47)%N then Some 63%N
  else None.

Definition isPad (c : ascii) : bool := (N_of_ascii c =? 61)%N.

Fixpoint EncodeToString (src : list byte) : string :=
  match src with
  | [] => ""
  | [a] =>
      let x := Byte.to_N a in
      String (enc (x / 4)) (String (enc ((x mod 4) * 16)) "==")
  | [a; b] =>
      let x := Byte.to_N a in
      let y := Byte.to_N b in
      String (enc (x / 4))
        (String (enc ((x mod 4) * 16 + y / 16))
           (String (enc ((y mod 16) * 4)) "="))
  | a :: b :: c :: rest =>
      let x := Byte.to_N a in
      let y := Byte.to_N b in
      let z := Byte.to_N c in
      String (enc (x / 4))
        (String (enc ((x mod 4) * 16 + y / 16))
           (String (enc ((y mod 16) * 4 + z / 64))
              (String (enc (z mod 64)) (EncodeToString rest))))
  end.

(** Groups of four digits; padding may only close the input. *)
Fixpoint quanta (l : list ascii) : option (list byte) :=
  match l with
  | [] => Some []
  | c0 :: c1 :: c2 :: c3 :: rest =>
      match dec c0, dec c1 with
      | Some s0, Some s1 =>
          let b0 := byteN (s0 * 4 + s1 / 16) in
          if isPad c2 then
            if isPad c3 then
              match rest with [] => Some [b0] | _ => None end
            else None
          else
            match dec c2 with
            | Some s2 =>
                let b1 := byteN ((s1 mod 16) * 16 + s2 / 4) in
                if isPad c3 then
                  match rest with [] => Some [b0; b1] | _ => None end
                else
                  match dec c3 with
                  | Some s3 =>
                      let b2 := byteN ((s2 mod 4) * 64 + s3) in
                      match quanta rest with
                      | Some bs => Some (b0 :: b1 :: b2 :: bs)
                      | None => None
                      end
                  | None => None
                  end
            | None => None
            end
      | _, _ => None
      end
  | _ => None
  end.

(** The decoder skips carriage returns and line feeds. *)
Definition isNewline (c : ascii) : bool :=
  let n := N_of_ascii c in ((n =? 10) || (n =? 13))%N.

Definition DecodeString (s : string) : option (list byte) :=
  quanta (List.filter (fun c => negb (isNewline c)) (list_ascii_of_string s)).
End base64.

(** ** encoding/json, on documents

    A JSON text is represented by the document it denotes; numbers are
    integers, the only ones the values above produce. *)
Inductive JSON : Type :=
| JNull
| JBool (b : bool)
| JNum (n : Z)
| JStr (s : string)
| JArr (l : list JSON)
| JObj (members : list (string * JSON)).

Module json.
(** Object members are written in the order of their keys. *)
Fixpoint insertKey {A : Type} (k : string) (a : A) (l : list (string * A))
  : list (string * A) :=
  match l with
  | [] => [(k, a)]
  | (k', a') :: l' =>
      if String.leb k k' then (k, a) :: l
      else (k', a') :: insertKey k a l'
  end.

Definition sortKeys {A : Type} (l : list (string * A)) : list (string * A) :=
  fold_right (fun kv acc => insertKey (fst kv) (snd kv) acc) [] l.

(** The first failure among the members, else all their documents. *)
Fixpoint sequence {A : Type} (l : list (string * Result A))
  : Result (list (string * A)) :=
  match l with
  | [] => Ok []
  | (k, Err e) :: _ => Err e
  | (k, Ok a) :: l' =>
      match sequence l' with
      | Ok r => Ok ((k, a) :: r)
      | Err e => Err e
      end
  end.

Fixpoint sequenceList {A : Type} (l : list (Result A)) : Result (list A) :=
  match l with
  | [] => Ok []
  | Err e :: _ => Err e
  | Ok a :: l' =>
      match sequenceList l' with
      | Ok r => Ok (a :: r)
      | Err e => Err e
      end
  end.

Definition bytesDoc (b : option (list byte)) : JSON :=
  match b with
  | None => JNull
  | Some bs => JStr (base64.EncodeToString bs)
  end.

(** The struct encoder writes the exported fields only, in declaration
    order: [FromCache], [StatusCode], [Body]. *)
Definition responseDoc (r : HttpResponse) : JSON :=
  JObj [("FromCache", JBool (FromCache r));
        ("StatusCode", JNum (StatusCode r));
        ("Body", bytesDoc (Body r))].

(** [json.Marshal], up to the rendering of the document. *)
Fixpoint MarshalDoc (v : GoValue) : Result JSON :=
  match v with
  | VNil => Ok JNull
  | VBool b => Ok (JBool b)
  | VInt n => Ok (JNum n)
  | VString s => Ok (JStr s)
  | VBytes b => Ok (bytesDoc b)
  | VMapStrStr m =>
      Ok (JObj (sortKeys (List.map (fun kv => (fst kv, JStr (snd kv)))
                            (map_to_list m))))
  | VMapStrAny m =>
      match sequence (sortKeys (List.map (fun '(k, x) => (k, MarshalDoc x)) m)) with
      | Ok ms => Ok (JObj ms)
      | Err e => Err e
      end
  | VSlice l =>
      match sequenceList (List.map MarshalDoc l) with
      | Ok js => Ok (JArr js)
      | Err e => Err e
      end
  | VHttpResponse None => Ok JNull
  | VHttpResponse (Some r) => Ok (responseDoc r)
  | VFunc => Err "json: unsupported type: func()"
  end.

(** Field names are matched as [bytes.EqualFold] does. Against names
    made of ASCII letters only three things can match a letter: the
    letter in either case, the long s (U+017F, bytes C5 BF) for [s], and
    the Kelvin sign (U+212A, bytes E2 84 AA) for [k]. *)
Definition upper (c : ascii) : ascii :=
  let n := N_of_ascii c in
  if ((97 <=? n) && (n <=? 122))%N then ascii_of_N (n - 32) else c.

Fixpoint foldName (l : list ascii) : list ascii :=
  match l with
  | [] => []
  | c :: l1 =>
      let n := N_of_ascii c in
      match l1 with
      | d :: l2 =>
          if ((n =? 197) && (N_of_ascii d =? 191))%N then
            "S"%char :: foldName l2
          else
            match l2 with
            | e :: l3 =>
                if ((n =? 226) && (N_of_ascii d =? 132) && (N_of_ascii e =? 170))%N
                then "K"%char :: foldName l3
                else upper c :: foldName l1
            | [] => upper c :: foldName l1
            end
      | [] => [upper c]
      end
  end.

Definition equalFold (key name : string) : bool :=
  bool_decide (foldName (list_ascii_of_string key)
               = foldName (list_ascii_of_string name)).

Definition minInt64 : Z := - 2 ^ 63.
Definition maxInt64 : Z := 2 ^ 63 - 1.

Definition keepFirst (e1 e2 : option error) : option error :=
  match e1 with
  | Some _ => e1
  | None => e2
  end.

(** An array read into a byte slice: each element lands on the slot of
    the same index, which keeps its former content (zero on a fresh
    slot) when the element is not a number between 0 and 255. *)
Fixpoint decodeBytes (l : list JSON) (old : list byte)
  : list byte * option error :=
  match l with
  | [] => ([], None)
  | j :: l' =>
      let prev := hd x00 old in
      let '(b, e) :=
        match j with
        | JNum n =>
            if ((0 <=? n) && (n <=? 255))%Z then (base64.byteN (Z.to_N n), None)
            else (prev, Some "json: cannot unmarshal number into Go value of type uint8")
        | JNull => (prev, None)
        | _ => (prev, Some "json: cannot unmarshal into Go value of type uint8")
        end in
      let '(bs, e') := decodeBytes l' (tl old) in
      (b :: bs, keepFirst e e')
  end.

(** One member of an object read into the struct: a key that matches
    no exported field is skipped, a value of the wrong kind leaves the
    field as it is and is reported. *)
Definition decodeField (r : HttpResponse) (key : string) (v : JSON)
  : HttpResponse * option error :=
  if equalFold key "FromCache" then
    match v with
    | JBool b =>
        (mkHttpResponse (method r) (cacheKey r) b (StatusCode r) (Body r), None)
    | JNull => (r, None)
    | _ => (r, Some "json: cannot unmarshal into Go struct field HttpResponse.FromCache of type bool")
    end
  else if equalFold key "StatusCode" then
    match v with
    | JNum n =>
        if ((minInt64 <=? n) && (n <=? maxInt64))%Z then
          (mkHttpResponse (method r) (cacheKey r) (FromCache r) n (Body r), None)
        else (r, Some "json: cannot unmarshal number into Go struct field HttpResponse.StatusCode of type int")
    | JNull => (r, None)
    | _ => (r, Some "json: cannot unmarshal into Go struct field HttpResponse.StatusCode of type int")
    end
  else if equalFold key "Body" then
    match v with
    | JStr s =>
        match base64.DecodeString s with
        | Some bs =>
            (mkHttpResponse (method r) (cacheKey r) (FromCache r) (StatusCode r) (Some bs), None)
        | None => (r, Some "illegal base64 data")
        end
    | JNull =>
        (mkHttpResponse (method r) (cacheKey r) (FromCache r) (StatusCode r) None, None)
    | JArr l =>
        let '(bs, e) := decodeBytes l (default [] (Body r)) in
        (mkHttpResponse (method r) (cacheKey r) (FromCache r) (StatusCode r) (Some bs), e)
    | _ => (r, Some "json: cannot unmarshal into Go struct field HttpResponse.Body of type []uint8")
    end
  else (r, None).

Fixpoint decodeMembers (ms : list (string * JSON)) (r : HttpResponse)
  : HttpResponse * option error :=
  match ms with
  | [] => (r, None)
  | (k, v) :: ms' =>
      let '(r1, e1) := decodeField r k v in
      let '(r2, e2) := decodeMembers ms' r1 in
      (r2, keepFirst e1 e2)
  end.

(** [json.Unmarshal(data, &result)] with [result] a [*HttpResponse]:
    [null] sets the pointer to nil; anything else allocates the struct
    when the pointer is nil, and only an object fills it. *)
Definition UnmarshalDoc (j : JSON) (result : option HttpResponse)
  : option HttpResponse * option error :=
  match j with
  | JNull => (None, None)
  | JObj ms =>
      let '(r, e) := decodeMembers ms (default zeroHttpResponse result) in
      (Some r, e)
  | _ =>
      (Some (default zeroHttpResponse result),
       Some "json: cannot unmarshal into Go value of type easyrqst.HttpResponse")
  end.

(** [Unmarshal] applied to what [Marshal] returned: nothing to parse
    when marshaling failed, and [result] stays as it was. *)
Definition Unmarshal (data : Result JSON) (result : option HttpResponse)
  : option HttpResponse * option error :=
  match data with
  | Ok j => UnmarshalDoc j result
  | Err _ => (result, Some "unexpected end of JSON input")
  end.
End json.

(** ** net/textproto and net/http, the parts the builder relies on *)
Module textproto.
(** The bytes of an RFC 7230 token. *)
Definition validHeaderFieldByte (c : ascii) : bool :=
  let n := N_of_ascii c in
  (((48 <=? n) && (n <=? 57)) || ((65 <=? n) && (n <=? 90))
   || ((97 <=? n) && (n <=? 122))
   || bool_decide (n ∈ [33; 35; 36; 37; 38; 39; 42; 43; 45; 46; 94; 95; 96; 124; 126]))%N.

(** Upper case at the start and after a dash, lower case elsewhere. *)
Fixpoint canonical (up : bool) (l : list ascii) : list ascii :=
  match l with
  | [] => []
  | c :: l' =>
      let n := N_of_ascii c in
      let c' :=
        if (up && (97 <=? n) && (n <=? 122))%N then ascii_of_N (n - 32)
        else if (negb up && (65 <=? n) && (n <=? 90))%N then ascii_of_N (n + 32)
        else c in
      c' :: canonical (N_of_ascii c' =? 45)%N l'
  end.

(** A key holding a byte outside the token set is left as it is. *)
Definition CanonicalMIMEHeaderKey (s : string) : string :=
  let l := list_ascii_of_string s in
  if forallb validHeaderFieldByte l then string_of_list_ascii (canonical true l)
  else s.
End textproto.

Module header.
(** [Header.Add]. *)
Definition Add (h : gmap string (list string)) (key value : string)
  : gmap string (list string) :=
  url.Add h (textproto.CanonicalMIMEHeaderKey key) value.

(** [Header.Values]: every value recorded under the key. *)
Definition Values (h : gmap string (list string)) (key : string) : list string :=
  default [] (h !! textproto.CanonicalMIMEHeaderKey key).
End header.

(** [type xmlElement struct]. *)
Module xml.
Record Name : Type := mkName { Space : string; Local : string }.
Record Attr : Type := mkAttr { AttrName : Name; Value : string }.
End xml.

Inductive xmlElement : Type :=
| mkXmlElement (XMLName : xml.Name) (Attr : list xml.Attr)
    (Content : string) (Children : list xmlElement).

Module multipart.
(** What a [multipart.Writer] has been asked to write. *)
Inductive Part : Type :=
| FormField (fieldname value : string)
| FormFile (fieldname filename : string) (content : list byte).

(** The boundary drawn by [NewWriter] is sixty hexadecimal digits and
    needs no quoting. *)
Definition FormDataContentType (boundary : string) : string :=
  "multipart/form-data; boundary=" ++ boundary.
End multipart.

(** ** Pure library functions, taken as they come

    The package only passes values through them; nothing below depends on
    what they compute, except that a [range] visits every entry of a map
    once, in an order of its own. *)
Class GoLib : Type := mkGoLib {
  (* url.Parse, as http.NewRequest calls it on the endpoint *)
  url_Parse : string -> Result url.URL;
  (* URL.Query: the pairs of a raw query, malformed ones dropped *)
  url_ParseQuery : string -> url.Values;
  (* Values.Encode *)
  url_Values_Encode : url.Values -> string;
  (* the text encoding/json writes for a document *)
  json_render : JSON -> list byte;
  (* xml.MarshalIndent(v, prefix, indent) *)
  xml_MarshalIndent : list xmlElement -> string -> string -> Result (list byte);
  (* fmt.Sprintf("%v", v) *)
  fmt_v : GoValue -> string;
  (* fmt.Sprintf("%q", s): the string as a quoted Go literal *)
  fmt_q : string -> string;
  (* filepath.Base *)
  filepath_Base : string -> string;
  (* the bytes a multipart.Writer with this boundary leaves in its buffer *)
  multipart_render : string -> list multipart.Part -> list byte;
  (* the order in which a range statement visits a map *)
  range : gmap string string -> list (string * string);
  range_perm : forall m, range m ≡ₚ map_to_list m
}.

(** [type cacheObj struct]. *)
Record cacheObj : Type := mkCacheObj {
  fncs : option ICacheFn;
  expiry : Z;
  idempotency : string
}.

(** [type ReqOptions struct]. Reading a nil [queries] or [headers] map is
    reading an empty one; [files] and [payload] are tested against nil. *)
Module ReqOptions.
Record t : Type := mk {
  queries : gmap string string;
  headers : gmap string string;
  files : option (gmap string string);
  cacheObj : option cacheObj;
  payload : GoValue
}.
End ReqOptions.

(** [type easyRequest struct]. *)
Module easyRequest.
Record t : Type := mk {
  forceCache : bool;
  cacheObj : option cacheObj;
  endpoint : string;
  client : Client;
  maxRetry : Z;
  retryWaitMax : Z;
  logger : Logger
}.

Definition set_cacheObj (h : t) c : t :=
  mk (forceCache h) c (endpoint h) (client h) (maxRetry h) (retryWaitMax h) (logger h).
End easyRequest.

Definition TReqOption : Type := ReqOptions.t -> ReqOptions.t.
Definition THttpOption : Type := easyRequest.t -> easyRequest.t.

Definition WithQueries (queries : gmap string string) : TReqOption :=
  fun o => ReqOptions.mk queries (ReqOptions.headers o) (ReqOptions.files o)
             (ReqOptions.cacheObj o) (ReqOptions.payload o).

Definition WithHeaders (headers : gmap string string) : TReqOption :=
  fun o => ReqOptions.mk (ReqOptions.queries o) headers (ReqOptions.files o)
             (ReqOptions.cacheObj o) (ReqOptions.payload o).

Definition WithPayload (payload : GoValue) : TReqOption :=
  fun o => ReqOptions.mk (ReqOptions.queries o) (ReqOptions.headers o)
             (ReqOptions.files o) (ReqOptions.cacheObj o) payload.

Definition WithFiles (files : option (gmap string string)) : TReqOption :=
  fun o => ReqOptions.mk (ReqOptions.queries o) (ReqOptions.headers o) files
             (ReqOptions.cacheObj o) (ReqOptions.payload o).

Definition WithCache (cache : option ICacheFn) (period : Z) (idempotency : string)
  : TReqOption :=
  fun o => ReqOptions.mk (ReqOptions.queries o) (ReqOptions.headers o)
             (ReqOptions.files o) (Some (mkCacheObj cache period idempotency))
             (ReqOptions.payload o).

Definition WithRetry (max : Z) : THttpOption :=
  fun o => easyRequest.mk (easyRequest.forceCache o) (easyRequest.cacheObj o)
             (easyRequest.endpoint o) (easyRequest.client o) max
             (easyRequest.retryWaitMax o) (easyRequest.logger o).

Definition WithRetryWaitMax (wait : Z) : THttpOption :=
  fun o => easyRequest.mk (easyRequest.forceCache o) (easyRequest.cacheObj o)
             (easyRequest.endpoint o) (easyRequest.client o) (easyRequest.maxRetry o)
             wait (easyRequest.logger o).

Definition WithLogger (logger : Logger) : THttpOption :=
  fun o => easyRequest.mk (easyRequest.forceCache o) (easyRequest.cacheObj o)
             (easyRequest.endpoint o) (easyRequest.client o) (easyRequest.maxRetry o)
             (easyRequest.retryWaitMax o) logger.

(** [for _, opt := range opts { opt(&options) }]. *)
Definition applyOpts {A : Type} (opts : list (A -> A)) (o : A) : A :=
  fold_left (fun acc opt => opt acc) opts o.

Definition second : Z := 1000000000.

(** [NewHttpClient]: the record it returns, and the three settings it
    copies into the retrying client it has just created. *)
Definition NewHttpClient (client : Client) (endpoint : string) (opts : list THttpOption)
  : easyRequest.t * (Z * Z * Logger) :=
  let easyRqstClient :=
    applyOpts opts (easyRequest.mk false None endpoint client 3 (1 * second) NoLogger) in
  (easyRqstClient,
   (easyRequest.maxRetry easyRqstClient,
    easyRequest.retryWaitMax easyRqstClient,
    easyRequest.logger easyRqstClient)).

(** The options a call starts from. *)
Definition freshOptions : ReqOptions.t := ReqOptions.mk ∅ ∅ None None VNil.

(** ** The package *)
Section easyrqst.
Context {lib : GoLib}.
Local Open Scope prog_scope.

(** [http.NewRequest]: an empty method means GET, the method must be a
    token and the endpoint must parse; the parsed URL is kept with an
    empty port removed from its host; the headers start empty. *)
Definition validMethod (m : string) : bool :=
  negb (bool_decide (m = "")) &&
  forallb textproto.validHeaderFieldByte (list_ascii_of_string m).

Definition NewRequest (method_ url_ : string) (body : option (list byte))
  : Result http.Request :=
  let method_ := if decide (method_ = "") then "GET" else method_ in
  if negb (validMethod method_) then Err ("net/http: invalid method " ++ fmt_q method_)
  else
    match url_Parse url_ with
    | Err e => Err e
    | Ok u =>
        let u := url.mkURL (url.Scheme u) (http.removeEmptyPort (url.Host u))
                   (url.Path u) (url.RawQuery u) in
        Ok (http.mkRequest method_ u ∅ body)
    end.

(** [handleMultipartFormData]. Writing a field into the in-memory
    buffer cannot fail; opening and reading a file can. The files
    opened so far are closed, last opened first, when the function
    returns. *)
Fixpoint writeFiles (files : list (string * string))
    (parts : list multipart.Part) (opened : list File)
  : Prog (Result (list multipart.Part) * list File) :=
  match files with
  | [] => Ret (Ok parts, opened)
  | (filename, filePath) :: rest =>
      file <- trigger (OsOpen filePath) ;;
      match file with
      | Err err =>
          Ret (Err ("failed to open file " ++ filePath ++ ": " ++ err), opened)
      | Ok file =>
          copied <- trigger (IoCopy file) ;;
          match copied with
          | Err err => Ret (Err err, file :: opened)
          | Ok content =>
              writeFiles rest
                (parts ++ [multipart.FormFile filename (filepath_Base filePath) content])%list
                (file :: opened)
          end
      end
  end.

Fixpoint closeAll (opened : list File) : Prog unit :=
  match opened with
  | [] => Ret tt
  | f :: rest => trigger (FileClose f) ;;; closeAll rest
  end.

Definition handleMultipartFormData (payload : gmap string string)
    (files : option (gmap string string))
  : Prog (Result (list byte * string)) :=
  boundary <- trigger RandomBoundary ;;
  let fields :=
    List.map (fun kv => multipart.FormField (fst kv) (snd kv)) (range payload) in
  written <- writeFiles (range (default ∅ files)) fields [] ;;
  closeAll (snd written) ;;;
  match fst written with
  | Err err => Ret (Err err)
  | Ok parts =>
      Ret (Ok (multipart_render boundary parts,
               multipart.FormDataContentType boundary))
  end.

(** [convertToXMLElements]: one element per entry; the recursion goes
    through the value of each entry. *)
Fixpoint elementOf (key : string) (value : GoValue) : xmlElement :=
  match value with
  | VString v => mkXmlElement (xml.mkName "" key) [] v []
  | VMapStrAny v =>
      mkXmlElement (xml.mkName "" key) [] ""
        (List.map (fun '(k, x) => elementOf k x) v)
  | v => mkXmlElement (xml.mkName "" key) [] (fmt_v v) []
  end.

Definition convertToXMLElements (data : list (string * GoValue)) : list xmlElement :=
  List.map (fun '(k, x) => elementOf k x) data.

Definition handleXMLData (data : list (string * GoValue)) : Result (list byte) :=
  xml_MarshalIndent (convertToXMLElements data) "" "  ".

(** [json.Marshal]. *)
Definition json_Marshal (v : GoValue) : Result (list byte) :=
  match json.MarshalDoc v with
  | Ok j => Ok (json_render j)
  | Err e => Err e
  end.

(** [toStruct[any, *HttpResponse]]: both errors are dropped and the
    result starts as the nil pointer. *)
Definition toStruct (m : GoValue) : option HttpResponse :=
  let data := json.MarshalDoc m in
  let result : option HttpResponse := None in
  fst (json.Unmarshal data result).

Definition isNil (v : GoValue) : bool :=
  match v with
  | VNil => true
  | _ => false
  end.

(** The type assertions [payload.(map[string]string)] and
    [payload.(map[string]interface{})]. *)
Definition asMapStrStr (v : GoValue) : option (gmap string string) :=
  match v with
  | VMapStrStr m => Some m
  | _ => None
  end.

Definition asMapStrAny (v : GoValue) : option (list (string * GoValue)) :=
  match v with
  | VMapStrAny m => Some m
  | _ => None
  end.

(** The [switch] of [prepareRequest]: the body, and the headers as the
    multipart case leaves them. *)
Definition encodePayload (options : ReqOptions.t)
  : Prog (Result (option (list byte) * gmap string string)) :=
  let headers := ReqOptions.headers options in
  let payload := ReqOptions.payload options in
  if negb (isNil payload) || bool_decide (ReqOptions.files options <> None) then
    let contentType := default "" (headers !! "Content-Type") in
    if decide (contentType = "application/x-www-form-urlencoded") then
      match asMapStrStr payload with
      | Some formData =>
          let data :=
            fold_left (fun d kv => url.Set_ d (fst kv) (snd kv)) (range formData) ∅ in
          Ret (Ok (Some (list_byte_of_string (url_Values_Encode data)), headers))
      | None =>
          Ret (Err "payload should be a map[string]string for x-www-form-urlencoded")
      end
    else if decide (contentType = "multipart/form-data") then
      match asMapStrStr payload with
      | None =>
          Ret (Err "payload should be a map[string]string for multipart/form-data")
      | Some fields =>
          r <- handleMultipartFormData fields (ReqOptions.files options) ;;
          match r with
          | Err err => Ret (Err err)
          | Ok (b, contentType) =>
              Ret (Ok (Some b, <["Content-Type" := contentType]> headers))
          end
      end
    else if decide (contentType = "application/xml") then
      match asMapStrAny payload with
      | None =>
          Ret (Err "payload should be a map[string]interface{} for application/xml")
      | Some data =>
          match handleXMLData data with
          | Err err => Ret (Err err)
          | Ok byts => Ret (Ok (Some byts, headers))
          end
      end
    else
      match json_Marshal payload with
      | Err err => Ret (Err err)
      | Ok byts => Ret (Ok (Some byts, headers))
      end
  else Ret (Ok (None, headers)).

(** [prepareRequest]: the client comes back with the binding attached
    when the options carry one with a capability. *)
Definition prepareRequest (h : easyRequest.t) (method_ endpoint : string)
    (opts : list TReqOption)
  : Prog (easyRequest.t * Result http.Request) :=
  let options := applyOpts opts freshOptions in
  encoded <- encodePayload options ;;
  match encoded with
  | Err err => Ret (h, Err err)
  | Ok (body, headers) =>
      match NewRequest method_ endpoint body with
      | Err err => Ret (h, Err err)
      | Ok req =>
          (* Add headers *)
          let hdr :=
            fold_left (fun hd kv => header.Add hd (fst kv) (snd kv))
              (range headers) (http.Header req) in
          (* Default content type *)
          let hdr :=
            match headers !! "Content-Type" with
            | Some _ => hdr
            | None => header.Add hdr "Content-Type" "application/json"
            end in
          (* Add queries *)
          let query :=
            fold_left (fun q kv => url.Add q (fst kv) (snd kv))
              (range (ReqOptions.queries options))
              (url_ParseQuery (url.RawQuery (http.URL req))) in
          let u := http.URL req in
          let u := url.mkURL (url.Scheme u) (url.Host u) (url.Path u)
                     (url_Values_Encode query) in
          let req := http.mkRequest (http.Method req) u hdr (http.Body req) in
          let h :=
            match ReqOptions.cacheObj options with
            | Some c =>
                match fncs c with
                | Some _ => easyRequest.set_cacheObj h (Some c)
                | None => h
                end
            | None => h
            end in
          Ret (h, Ok req)
      end
  end.

(** [h.profile(url, method)]: the clock is read when the call is
    deferred, and the closure it returns runs when [executeRequest]
    leaves, whichever way. *)
Definition profile (h : easyRequest.t) (url_ method_ : string) (start : Z)
  : Prog unit :=
  ms <- trigger (TimeSince start) ;;
  match easyRequest.logger h with
  | LeveledLogger v => trigger (LogDebug v url_ method_ ms)
  | PrintfLogger v => trigger (LogPrintf v url_ method_ ms)
  | _ => Ret tt
  end.

Definition withCacheKey (r : HttpResponse) (key : string) : HttpResponse :=
  mkHttpResponse (method r) key (FromCache r) (StatusCode r) (Body r).

Definition withFromCache (r : HttpResponse) (b : bool) : HttpResponse :=
  mkHttpResponse (method r) (cacheKey r) b (StatusCode r) (Body r).

(** The capability of the binding attached to the client, when both
    the binding and its capability are non-nil. *)
Definition binding (h : easyRequest.t) : option (ICacheFn * cacheObj) :=
  match easyRequest.cacheObj h with
  | Some c =>
      match fncs c with
      | Some f => Some (f, c)
      | None => None
      end
  | None => None
  end.

(** [executeRequest]. The two deferred calls run when the function
    leaves: closing the body first, then the timing closure. *)
Definition executeRequest (h : easyRequest.t) (req : http.Request)
  : Prog (Outcome (option HttpResponse * option error)) :=
  start <- trigger TimeNow ;;
  result <-
    (hit <-
       match binding h with
       | Some (f, c) =>
           let key :=
             http.Method req ++ "_" ++ idempotency c ++ "_"
             ++ (url.Path (http.URL req) ++ "?" ++ url.RawQuery (http.URL req)) in
           got <- trigger (CacheGet f key) ;;
           match snd got with
           | None =>
               match toStruct (fst got) with
               | Some data =>
                   let data := withCacheKey data key in
                   let data := withFromCache data true in
                   Ret (Some (Returned (Some data, None)))
               | None =>
                   Ret (Some (Panicked
                                "invalid memory address or nil pointer dereference"))
               end
           | Some _ => Ret None
           end
       | None => Ret None
       end ;;
     match hit with
     | Some out => Ret out
     | None =>
         resp <- trigger (ClientDo (easyRequest.client h) req) ;;
         match resp with
         | Err err => Ret (Returned (None, Some err))
         | Ok resp =>
             result <-
               (read <- trigger (ReadAll (http.RespBody resp)) ;;
                match snd read with
                | Some err =>
                    Ret (Returned
                           (Some (mkHttpResponse (http.Method req) "" false
                                    (http.StatusCode resp) None),
                            Some err))
                | None =>
                    let response :=
                      mkHttpResponse (http.Method req) "" false
                        (http.StatusCode resp) (Some (fst read)) in
                    match binding h with
                    | Some (f, c) =>
                        if bool_decide (http.StatusCode resp = http.StatusOK)
                           || bool_decide (http.StatusCode resp = http.StatusCreated)
                        then
                          let response := withFromCache response false in
                          let response :=
                            withCacheKey response
                              (http.Method req ++ "_" ++ idempotency c ++ "_"
                               ++ (url.Path (http.URL req) ++ "?"
                                   ++ url.RawQuery (http.URL req))) in
                          trigger (CacheSet f (cacheKey response)
                                  (VHttpResponse (Some response)) (expiry c)) ;;;
                          Ret (Returned (Some response, None))
                        else Ret (Returned (Some response, None))
                    | None => Ret (Returned (Some response, None))
                    end
                end) ;;
             trigger (BodyClose (http.RespBody resp)) ;;;
             Ret result
         end
     end) ;;
  profile h (url.Path (http.URL req)) (http.Method req) start ;;;
  Ret result.

(** [Get], [Post] and [Custom]: the client as the call leaves it, and
    what the call gives back. *)
Definition Custom (h : easyRequest.t) (method_ : string) (opts : list TReqOption)
  : Prog (easyRequest.t * Outcome (option HttpResponse * option error)) :=
  prepared <- prepareRequest h method_ (easyRequest.endpoint h) opts ;;
  match snd prepared with
  | Err err => Ret (fst prepared, Returned (None, Some err))
  | Ok req =>
      out <- executeRequest (fst prepared) req ;;
      Ret (fst prepared, out)
  end.

Definition Get (h : easyRequest.t) (opts : list TReqOption) :=
  Custom h http.MethodGet opts.

Definition Post (h : easyRequest.t) (opts : list TReqOption) :=
  Custom h http.MethodPost opts.

(** The accessors of the envelope. *)
Definition Method (h : HttpResponse) : string := method h.
Definition CacheKey (h : HttpResponse) : string := cacheKey h.
End easyrqst.

(** ** What the specification says, in its own words *)
Module Spec.
(** "cache key = method + _ + idempotencyTag + _ + path + ? + rawQuery". *)
Definition cacheKey (method_ idempotencyTag path rawQuery : string) : string :=
  (((((method_ ++ "_") ++ idempotencyTag) ++ "_") ++ path) ++ "?") ++ rawQuery.

(** "the status code is 200 or 201". *)
Definition cacheable (status : Z) : Prop := status = 200%Z \/ status = 201%Z.
End Spec.

(** ** A plain library and a small world, to run the package

    The plain library does no escaping and no indentation; it is enough
    to build and read back the requests of the examples. *)
Module Plain.
Fixpoint cut (sep : ascii) (l : list ascii) : list ascii * option (list ascii) :=
  match l with
  | [] => ([], None)
  | c :: l' =>
      if Ascii.eqb c sep then ([], Some l')
      else let '(a, b) := cut sep l' in (c :: a, b)
  end.

Fixpoint splitOn (sep : ascii) (l : list ascii) : list (list ascii) :=
  match l with
  | [] => [[]]
  | c :: l' =>
      match splitOn sep l' with
      | seg :: segs =>
          if Ascii.eqb c sep then [] :: seg :: segs else (c :: seg) :: segs
      | [] => [[c]]
      end
  end.

Definition str (l : list ascii) : string := string_of_list_ascii l.
Definition chars (s : string) : list ascii := list_ascii_of_string s.

Definition isControl (c : ascii) : bool :=
  let n := N_of_ascii c in ((n <? 32) || (n =? 127))%N.

Definition parseURL (s : string) : Result url.URL :=
  if existsb isControl (chars s) then
    Err "net/url: invalid control character in URL"
  else
    let '(before, query) := cut "?"%char (chars s) in
    let rawQuery := str (default [] query) in
    match cut ":"%char before with
    | (scheme, Some ("/"%char :: "/"%char :: rest)) =>
        let '(host, path) := cut "/"%char rest in
        Ok (url.mkURL (str scheme) (str host)
              (match path with Some p => str ("/"%char :: p) | None => "" end)
              rawQuery)
    | _ => Ok (url.mkURL "" "" (str before) rawQuery)
    end.

Definition parseQuery (s : string) : url.Values :=
  fold_left
    (fun q seg =>
       match seg with
       | [] => q
       | _ => let '(k, v) := cut "="%char seg in url.Add q (str k) (str (default [] v))
       end)
    (splitOn "&"%char (chars s)) ∅.

Fixpoint join (sep : string) (l : list string) : string :=
  match l with
  | [] => ""
  | [s] => s
  | s :: l' => s ++ sep ++ join sep l'
  end.

Definition encodeValues (v : url.Values) : string :=
  join "&"
    (concat (List.map (fun kvs => List.map (fun x => fst kvs ++ "=" ++ x) (snd kvs))
               (json.sortKeys (map_to_list v)))).

Definition quote (s : string) : string :=
  String "034"%char (s ++ String "034"%char "").

Fixpoint renderJSON (j : JSON) : string :=
  match j with
  | JNull => "null"
  | JBool true => "true"
  | JBool false => "false"
  | JNum n => pretty.pretty n
  | JStr s => quote s
  | JArr l => "[" ++ join "," (List.map renderJSON l) ++ "]"
  | JObj ms =>
      "{" ++ join "," (List.map (fun '(k, v) => quote k ++ ":" ++ renderJSON v) ms) ++ "}"
  end.

Fixpoint renderXML (e : xmlElement) : string :=
  match e with
  | mkXmlElement name _ content children =>
      "<" ++ xml.Local name ++ ">" ++ content
      ++ join "" (List.map renderXML children)
      ++ "</" ++ xml.Local name ++ ">"
  end.

Definition sprintV (v : GoValue) : string :=
  match v with
  | VNil => "<nil>"
  | VBool true => "true"
  | VBool false => "false"
  | VInt n => pretty.pretty n
  | VString s => s
  | _ => ""
  end.

Definition base (p : string) : string :=
  str (default [] (last (splitOn "/"%char (chars p)))).

Definition crlf : string := String "013"%char (String "010"%char "").

Definition renderPart (boundary : string) (p : multipart.Part) : string :=
  match p with
  | multipart.FormField name value =>
      "--" ++ boundary ++ crlf ++ "Content-Disposition: form-data; name="
      ++ quote name ++ crlf ++ crlf ++ value ++ crlf
  | multipart.FormFile name filename content =>
      "--" ++ boundary ++ crlf ++ "Content-Disposition: form-data; name="
      ++ quote name ++ "; filename=" ++ quote filename ++ crlf
      ++ "Content-Type: application/octet-stream" ++ crlf ++ crlf
      ++ string_of_list_byte content ++ crlf
  end.

Definition renderMultipart (boundary : string) (ps : list multipart.Part) : list byte :=
  list_byte_of_string
    (join "" (List.map (renderPart boundary) ps) ++ "--" ++ boundary ++ "--" ++ crlf).

Definition lib : GoLib :=
  mkGoLib parseURL parseQuery encodeValues
    (fun j => list_byte_of_string (renderJSON j))
    (fun es _ _ => Ok (list_byte_of_string (join "" (List.map renderXML es))))
    sprintV quote base renderMultipart
    map_to_list (fun m => reflexivity (map_to_list m)).
End Plain.

(** A cache capability, as a pure machine over its store. *)
Record CacheImpl : Type := mkCacheImpl {
  onGet : gmap string GoValue -> string -> GoValue * option error;
  onSet : gmap string GoValue -> string -> GoValue -> Z
          -> (GoValue * option error) * gmap string GoValue
}.

(** [LocalCache] of example/client/main.go: [Get] fails with "key not
    found" on an absent key, [Set] stores and returns [nil, nil]. *)
Definition LocalCache : CacheImpl :=
  mkCacheImpl
    (fun m key =>
       match m !! key with
       | Some data => (data, None)
       | None => (VNil, Some "key not found")
       end)
    (fun m key value _ => ((VNil, None), <[key := value]> m)).

(** A cache that answers [nil, nil] for a key it does not hold. *)
Definition NilCache : CacheImpl :=
  mkCacheImpl
    (fun m key => (default VNil (m !! key), None))
    (fun m key value _ => ((VNil, None), <[key := value]> m)).

(** A cache that never holds anything and whose [Set] fails. *)
Definition BrokenCache : CacheImpl :=
  mkCacheImpl
    (fun _ _ => (VNil, Some "key not found"))
    (fun m _ _ _ => ((VNil, Some "cache backend unavailable"), m)).

(** What the server does with a request: the transport fails, or there
    is a status code and a body stream that reads fully or breaks. *)
Definition Server : Type :=
  http.Request -> Result (Z * (list byte * option error)).

Record Machine : Type := mkMachine {
  clock : Z;
  mem : gmap string GoValue;
  streams : list (list byte * option error);
  opened : list (list byte)
}.

Definition boot : Machine := mkMachine 0 ∅ [] [].

Definition machineAnswer (impl : CacheImpl) (server : Server)
    (disk : gmap string (list byte)) (X : Type) (e : Eff X)
  : Machine -> X * Machine :=
  match e in Eff X return Machine -> X * Machine with
  | TimeNow => fun s =>
      (clock s, mkMachine (clock s + 1) (mem s) (streams s) (opened s))
  | TimeSince start => fun s => ((clock s - start)%Z, s)
  | LogDebug _ _ _ _ => fun s => (tt, s)
  | LogPrintf _ _ _ _ => fun s => (tt, s)
  | CacheGet _ key => fun s => (onGet impl (mem s) key, s)
  | CacheSet _ key value ttl => fun s =>
      let '(r, m) := onSet impl (mem s) key value ttl in
      (r, mkMachine (clock s) m (streams s) (opened s))
  | ClientDo _ req => fun s =>
      match server req with
      | Err err => (Err err, s)
      | Ok (status, stream) =>
          (Ok (http.mkResponse status (length (streams s))),
           mkMachine (clock s) (mem s) (streams s ++ [stream])%list (opened s))
      end
  | ReadAll b => fun s =>
      (default ([], Some "http: read on closed response body") (streams s !! b), s)
  | BodyClose _ => fun s => (tt, s)
  | RandomBoundary => fun s => ("0123456789abcdef", s)
  | OsOpen path => fun s =>
      match disk !! path with
      | Some content =>
          (Ok (length (opened s)),
           mkMachine (clock s) (mem s) (streams s) (opened s ++ [content])%list)
      | None => (Err ("open " ++ path ++ ": no such file or directory"), s)
      end
  | IoCopy f => fun s =>
      (match opened s !! f with
       | Some content => Ok content
       | None => Err "read: file already closed"
       end, s)
  | FileClose _ => fun s => (tt, s)
  end.

Definition machine (impl : CacheImpl) (server : Server)
    (disk : gmap string (list byte)) : World :=
  mkWorld Machine (machineAnswer impl server disk).

(** The result and the trace of a run from a given state. *)
Definition resultOf {R S : Type} (x : R * Trace * S) : R := fst (fst x).
Definition traceOf {R S : Type} (x : R * Trace * S) : Trace := snd (fst x).
Definition stateOf {R S : Type} (x : R * Trace * S) : S := snd x.

(** Every key handed to the cache capability during a run. *)
Definition asKey (en : Entry) : option string :=
  match en with
  | E (CacheGet _ key) _ => Some key
  | E (CacheSet _ key _ _) _ => Some key
  | _ => None
  end.

Definition cacheKeys (t : Trace) : list string := omap asKey t.

(** ** The calls of example/client/main.go *)
Module Example.
Definition minute : Z := 60 * second.
Definition millisecond : Z := 1000000.

Definition endpoint : string := "http://localhost:9000/json".

(** [call := easyrqst.NewHttpClient(endpoint, WithRetry(4), WithRetryWaitMax(100ms))]. *)
Definition call : easyRequest.t :=
  fst (NewHttpClient 0 endpoint [WithRetry 4; WithRetryWaitMax (100 * millisecond)]).

Definition headers : TReqOption :=
  WithHeaders {["Content-Type" := "application/json"]}.

(** [caching := easyrqst.WithCache(cache, time.Minute*5, "json")]. *)
Definition theCache : ICacheFn := 1.
Definition caching : TReqOption := WithCache (Some theCache) (5 * minute) "json".

(** The client once the binding is attached, and the request built by
    [call.Get(headers, caching)]. *)
Definition bound : easyRequest.t :=
  easyRequest.set_cacheObj call (Some (mkCacheObj (Some theCache) (5 * minute) "json")).

Definition request : http.Request :=
  http.mkRequest "GET" (url.mkURL "http" "localhost:9000" "/json" "")
    {["Content-Type" := ["application/json"]]} None.

Definition key : string := "GET_json_/json?".

Definition okBody : list byte := list_byte_of_string "{}".

(** Servers: one that answers 200, one that answers 201, one that
    answers 404, one whose body breaks while it is read, one that cannot
    be reached. *)
Definition answers (status : Z) : Server :=
  fun _ => Ok (status, (okBody, None)).

Definition breaks (status : Z) : Server :=
  fun _ => Ok (status, ([], Some "unexpected EOF")).

Definition unreachable : Server :=
  fun _ => Err "dial tcp: connection refused".

Definition noDisk : gmap string (list byte) := ∅.

(** [GET_Json] issued twice through the same client, with the same
    options: what the first call returned and what the second did. *)
Definition twice
  : Prog (Outcome (option HttpResponse * option error)
          * Outcome (option HttpResponse * option error)) :=
  (first <- Get (lib := Plain.lib) call [headers; caching] ;;
   later <- Get (lib := Plain.lib) (fst first) [headers; caching] ;;
   Ret (snd first, snd later))%prog.

(** The binding of [caching], and executions of [request] under it. *)
Definition json5 : cacheObj := mkCacheObj (Some theCache) (5 * minute) "json".

Definition miss200 :=
  run (machine LocalCache (answers 200) noDisk) (executeRequest bound request) boot.

Definition miss201 :=
  run (machine LocalCache (answers 201) noDisk) (executeRequest bound request) boot.

Definition broken201 :=
  run (machine BrokenCache (answers 201) noDisk) (executeRequest bound request) boot.

Definition torn200 :=
  run (machine LocalCache (breaks 200) noDisk) (executeRequest bound request) boot.

(** [generalPayload], [multipartPayload] of the tests, and option lists
    built from them. *)
Definition generalPayload : GoValue :=
  VMapStrAny [("name", VString "morpheus"); ("age", VInt 30);
              ("email", VString "example@example.com")].

Definition formOpts : list TReqOption :=
  [WithPayload generalPayload;
   WithHeaders {["Content-Type" := "application/x-www-form-urlencoded"]}].

Definition filesOnlyOpts : list TReqOption :=
  [WithHeaders {["Content-Type" := "multipart/form-data"]};
   WithFiles (Some {["files" := "example/img.png"]})].

Definition bareOpts : list TReqOption := [WithPayload generalPayload].

Definition barePost :=
  run (machine LocalCache (answers 201) noDisk)
    (prepareRequest (lib := Plain.lib) call "POST" endpoint bareOpts) boot.

Definition bareBody : list byte :=
  list_byte_of_string
    (Plain.renderJSON
       (JObj [("age", JNum 30); ("email", JStr "example@example.com");
              ("name", JStr "morpheus")])).

Definition bareRequest : http.Request :=
  http.mkRequest "POST" (url.mkURL "http" "localhost:9000" "/json" "")
    {["Content-Type" := ["application/json"]]} (Some bareBody).

(** The same request executed again, on the state [miss200] left. *)
Definition hit200 :=
  run (machine LocalCache (answers 200) noDisk) (executeRequest bound request)
    (stateOf miss200).

(** The envelope [miss200] stored. *)
Definition stored200 : HttpResponse :=
  mkHttpResponse "GET" key false 200 (Some okBody).

(** An execution whose transport fails, and a client with a leveled
    logger. *)
Definition down :=
  run (machine LocalCache unreachable noDisk) (executeRequest bound request) boot.

Definition logged : easyRequest.t :=
  fst (NewHttpClient 0 endpoint [WithLogger (LeveledLogger 7)]).

Definition logged404 :=
  run (machine LocalCache (answers 404) noDisk) (executeRequest logged request) boot.

Definition miss404 :=
  run (machine LocalCache (answers 404) noDisk) (executeRequest bound request) boot.

(** [call.Get(headers, caching)], then [call.Post(payload)] twice with
    no [WithCache] among its options, all through the same client, each
    call on the state the one before left. *)
Definition firstGet :=
  run (machine LocalCache (answers 200) noDisk)
    (Get (lib := Plain.lib) call [headers; caching]) boot.

Definition laterPost :=
  run (machine LocalCache (answers 200) noDisk)
    (Post (lib := Plain.lib) (fst (resultOf firstGet)) bareOpts) (stateOf firstGet).

Definition lastPost :=
  run (machine LocalCache (answers 200) noDisk)
    (Post (lib := Plain.lib) (fst (resultOf laterPost)) bareOpts) (stateOf laterPost).
End Example.

(** The answers a run received from the cache lookup, from the
    transport, from the read of the body and from the cache store. *)
Definition asGetReply (en : Entry) : option (GoValue * option error) :=
  match en with
  | E e x =>
      match e in Eff X return X -> option (GoValue * option error) with
      | CacheGet _ _ => fun x => Some x
      | _ => fun _ => None
      end x
  end.

Definition asDoReply (en : Entry) : option (Result http.Response) :=
  match en with
  | E e x =>
      match e in Eff X return X -> option (Result http.Response) with
      | ClientDo _ _ => fun x => Some x
      | _ => fun _ => None
      end x
  end.

Definition asReadReply (en : Entry) : option (list byte * option error) :=
  match en with
  | E e x =>
      match e in Eff X return X -> option (list byte * option error) with
      | ReadAll _ => fun x => Some x
      | _ => fun _ => None
      end x
  end.

Definition asSetReply (en : Entry) : option (GoValue * option error) :=
  match en with
  | E e x =>
      match e in Eff X return X -> option (GoValue * option error) with
      | CacheSet _ _ _ _ => fun x => Some x
      | _ => fun _ => None
      end x
  end.

Definition getReplies (t : Trace) : list (GoValue * option error) := omap asGetReply t.
Definition doReplies (t : Trace) : list (Result http.Response) := omap asDoReply t.
Definition readReplies (t : Trace) : list (list byte * option error) := omap asReadReply t.
Definition setReplies (t : Trace) : list (GoValue * option error) := omap asSetReply t.

(** The key [executeRequest] computes for a request under a binding. *)
Definition keyOf (req : http.Request) (c : cacheObj) : string :=
  Spec.cacheKey (http.Method req) (idempotency c)
    (url.Path (http.URL req)) (url.RawQuery (http.URL req)).

(** ** Two sentences of the specification, as they are written *)
Module AsStated.
(** "For every executed request with an attached cache binding that
    misses the cache, a store is performed if and only if the
    transport's response status code is 200 or 201." *)
Definition store_iff_200_201 : Prop :=
  forall (h : easyRequest.t) (req : http.Request) f c t r cached err resp,
    binding h = Some (f, c) ->
    exec (executeRequest h req) t r ->
    getReplies t = [(cached, Some err)] ->
    doReplies t = [Ok resp] ->
    (stores t <> [] <-> Spec.cacheable (http.StatusCode resp)).

(** "A cache binding supplied to one call is not shared with later calls
    on the same client: a later call made without a cache binding does
    not consult the cache, stores nothing, and returns an envelope whose
    cache key is empty." *)
Definition binding_owned_by_call : Prop :=
  forall (lib : GoLib) (W : World) (s : St W) (h : easyRequest.t)
         (method1 method2 : string) (opts1 opts2 : list TReqOption),
    ReqOptions.cacheObj (applyOpts opts2 freshOptions) = None ->
    let first := run W (Custom h method1 opts1) s in
    let later := run W (Custom (fst (resultOf first)) method2 opts2) (stateOf first) in
    cacheKeys (traceOf later) = [] /\
    forall envelope err,
      snd (resultOf later) = Returned (Some envelope, err) ->
      CacheKey envelope = "".
End AsStated.

(** Neither the cache nor the transport is touched. *)
Definition quiet (t : Trace) : Prop := cacheKeys t = [] /\ doCount t = 0.

(** ** Further observations on traces *)

(** A line handed to the logger. *)
Inductive LogLine : Type :=
| DebugLine (l : nat) (url_ method_ : string) (elapsed : Z)
| PrintfLine (l : nat) (url_ method_ : string) (elapsed : Z).

Definition asLog (en : Entry) : option LogLine :=
  match en with
  | E (LogDebug l u m ms) _ => Some (DebugLine l u m ms)
  | E (LogPrintf l u m ms) _ => Some (PrintfLine l u m ms)
  | _ => None
  end.

Definition logs (t : Trace) : list LogLine := omap asLog t.

(** The readings of the clock: [time.Now], and [time.Since] with the
    instant it was given and the duration it answered. *)
Definition asNow (en : Entry) : option Z :=
  match en with
  | E e x =>
      match e in Eff X return X -> option Z with
      | TimeNow => fun x => Some x
      | _ => fun _ => None
      end x
  end.

Definition asSince (en : Entry) : option (Z * Z) :=
  match en with
  | E e x =>
      match e in Eff X return X -> option (Z * Z) with
      | TimeSince start => fun x => Some (start, x)
      | _ => fun _ => None
      end x
  end.

Definition nows (t : Trace) : list Z := omap asNow t.
Definition sinces (t : Trace) : list (Z * Z) := omap asSince t.

(** The requests handed to the transport, the body streams read and
    the body streams closed. *)
Definition asDo (en : Entry) : option (Client * http.Request) :=
  match en with
  | E (ClientDo c req) _ => Some (c, req)
  | _ => None
  end.

Definition asReadStream (en : Entry) : option BodyStream :=
  match en with
  | E (ReadAll b) _ => Some b
  | _ => None
  end.

Definition asBodyClose (en : Entry) : option BodyStream :=
  match en with
  | E (BodyClose b) _ => Some b
  | _ => None
  end.

Definition dos (t : Trace) : list (Client * http.Request) := omap asDo t.
Definition readStreams (t : Trace) : list BodyStream := omap asReadStream t.
Definition bodyCloses (t : Trace) : list BodyStream := omap asBodyClose t.

(** The files a run tried to open, with the answers; the ones it
    opened; what it copied out of them; the ones it closed; and the
    boundaries it drew. *)
Definition asOpen (en : Entry) : option (string * Result File) :=
  match en with
  | E e x =>
      match e in Eff X return X -> option (string * Result File) with
      | OsOpen path => fun x => Some (path, x)
      | _ => fun _ => None
      end x
  end.

Definition asOpened (en : Entry) : option File :=
  match asOpen en with
  | Some (_, Ok f) => Some f
  | _ => None
  end.

Definition asCopy (en : Entry) : option (File * Result (list byte)) :=
  match en with
  | E e x =>
      match e in Eff X return X -> option (File * Result (list byte)) with
      | IoCopy f => fun x => Some (f, x)
      | _ => fun _ => None
      end x
  end.

Definition asCopied (en : Entry) : option (list byte) :=
  match asCopy en with
  | Some (_, Ok content) => Some content
  | _ => None
  end.

Definition asFileClose (en : Entry) : option File :=
  match en with
  | E (FileClose f) _ => Some f
  | _ => None
  end.

Definition asBoundary (en : Entry) : option string :=
  match en with
  | E e x =>
      match e in Eff X return X -> option string with
      | RandomBoundary => fun x => Some x
      | _ => fun _ => None
      end x
  end.

Definition opens (t : Trace) : list (string * Result File) := omap asOpen t.
Definition opened_ (t : Trace) : list File := omap asOpened t.
Definition copies (t : Trace) : list (File * Result (list byte)) := omap asCopy t.
Definition copied (t : Trace) : list (list byte) := omap asCopied t.
Definition fileCloses (t : Trace) : list File := omap asFileClose t.
Definition boundaries (t : Trace) : list string := omap asBoundary t.

(** The file part [handleMultipartFormData] writes for an entry of the
    file map, given what was read from the file. *)
Definition filePart {lib : GoLib} (entry : string * string) (content : list byte)
  : multipart.Part :=
  multipart.FormFile (fst entry) (filepath_Base (snd entry)) content.

(** ** The options, by name

    Code outside the package can only build its options with the [With]
    functions; these are their names. *)
Inductive ReqOpt : Type :=
| OQueries (queries : gmap string string)
| OHeaders (headers : gmap string string)
| OPayload (payload : GoValue)
| OFiles (files : option (gmap string string))
| OCache (cache : option ICacheFn) (period : Z) (idempotency : string).

Definition reqOption (o : ReqOpt) : TReqOption :=
  match o with
  | OQueries queries => WithQueries queries
  | OHeaders headers => WithHeaders headers
  | OPayload payload => WithPayload payload
  | OFiles files => WithFiles files
  | OCache cache period idempotency => WithCache cache period idempotency
  end.

Inductive HttpOpt : Type :=
| ORetry (max : Z)
| ORetryWaitMax (wait : Z)
| OLogger (logger : Logger).

Definition httpOption (o : HttpOpt) : THttpOption :=
  match o with
  | ORetry max => WithRetry max
  | ORetryWaitMax wait => WithRetryWaitMax wait
  | OLogger logger => WithLogger logger
  end.

Definition givenQueries (o : ReqOpt) : option (gmap string string) :=
  match o with OQueries q => Some q | _ => None end.
Definition givenHeaders (o : ReqOpt) : option (gmap string string) :=
  match o with OHeaders hs => Some hs | _ => None end.
Definition givenPayload (o : ReqOpt) : option GoValue :=
  match o with OPayload p => Some p | _ => None end.
Definition givenFiles (o : ReqOpt) : option (option (gmap string string)) :=
  match o with OFiles f => Some f | _ => None end.
Definition givenCache (o : ReqOpt) : option (option cacheObj) :=
  match o with OCache c p i => Some (Some (mkCacheObj c p i)) | _ => None end.

Definition givenRetry (o : HttpOpt) : option Z :=
  match o with ORetry n => Some n | _ => None end.
Definition givenWait (o : HttpOpt) : option Z :=
  match o with ORetryWaitMax w => Some w | _ => None end.
Definition givenLogger (o : HttpOpt) : option Logger :=
  match o with OLogger l => Some l | _ => None end.

(** The last value given for a setting, or what it had before. *)
Definition lastGiven {O A : Type} (given : O -> option A) (opts : list O) (before : A) : A :=
  default before (last (omap given opts)).

(** ** The payloads [convertToXMLElements] keeps apart

    Strings, and maps that are not empty and hold such values again. *)
Fixpoint xmlShaped (v : GoValue) : bool :=
  match v with
  | VString _ => true
  | VMapStrAny m =>
      match m with
      | [] => false
      | _ => forallb (fun '(_, x) => xmlShaped x) m
      end
  | _ => false
  end.

(** An element read back as the entry it was made from: a leaf is a
    string, an element with children is a map. *)
Fixpoint entryOf (e : xmlElement) : string * GoValue :=
  match e with
  | mkXmlElement name _ content children =>
      (xml.Local name,
       match children with
       | [] => VString content
       | _ => VMapStrAny (List.map entryOf children)
       end)
  end.

(** ** More calls, from the tests and the examples *)
Module Scenario.
Definition world : World :=
  machine LocalCache (Example.answers 200) {["example/img.png" := [x89; x50; x4e; x47]]}.

Definition emptyDisk : World :=
  machine LocalCache (Example.answers 200) Example.noDisk.

(** [multipartPayload] and [complexPayload] of the tests. *)
Definition multipartPayload : gmap string string :=
  {["name" := "morpheus"; "age" := "30"; "email" := "example@example.com"]}.

Definition complexPayload : list (string * GoValue) :=
  [("person",
    VMapStrAny [("name", VString "John Doe"); ("age", VString "30");
                ("address",
                 VMapStrAny [("city", VString "New York"); ("state", VString "NY")])])].

Definition theFiles : gmap string string := {["files" := "example/img.png"]}.

(** [GET_UrlEncoded]: a form content type and nothing to encode. *)
Definition getForm :=
  run emptyDisk
    (prepareRequest (lib := Plain.lib) Example.call "GET" "http://localhost:9000/form"
       [WithHeaders {["Content-Type" := "application/x-www-form-urlencoded"]}]) boot.

(** A custom call with an empty method, and one with a method that is
    not a token. *)
Definition emptyMethod :=
  run emptyDisk (Custom (lib := Plain.lib) Example.call "" [Example.headers]) boot.

Definition badMethod :=
  run emptyDisk
    (Custom (lib := Plain.lib) Example.call "GET IT" [Example.headers; Example.caching]) boot.

(** [call.Get(headers, caching)], and a call with query options on an
    endpoint that has a query of its own. *)
Definition cachedGet :=
  run emptyDisk
    (prepareRequest (lib := Plain.lib) Example.call "GET" Example.endpoint
       [Example.headers; Example.caching]) boot.


(** [POST_UrlEncoded], [POST_Multipart] and [POST_Xml]. *)
Definition formOpts : list TReqOption :=
  [WithPayload (VMapStrStr multipartPayload);
   WithHeaders {["Content-Type" := "application/x-www-form-urlencoded"]}].

Definition postForm :=
  run emptyDisk
    (prepareRequest (lib := Plain.lib) Example.call "POST" "http://localhost:9000/form"
       formOpts) boot.

Definition multipartOpts : list TReqOption :=
  [WithPayload (VMapStrStr multipartPayload);
   WithHeaders {["Content-Type" := "multipart/form-data"]};
   WithFiles (Some theFiles)].

Definition postMultipart :=
  run world
    (prepareRequest (lib := Plain.lib) Example.call "POST"
       "http://localhost:9000/multipart" multipartOpts) boot.

Definition writeMultipart :=
  run world (handleMultipartFormData (lib := Plain.lib) multipartPayload (Some theFiles)) boot.

(** The same with the file missing. *)
Definition writeMissing :=
  run emptyDisk
    (handleMultipartFormData (lib := Plain.lib) multipartPayload (Some theFiles)) boot.

(** An XML call given the form payload, and a call given files only. *)
Definition xmlOpts : list TReqOption :=
  [WithPayload (VMapStrStr multipartPayload);
   WithHeaders {["Content-Type" := "application/xml"]}].

Definition postXmlWrong :=
  run emptyDisk
    (prepareRequest (lib := Plain.lib) Example.call "POST" "http://localhost:9000/xml"
       xmlOpts) boot.

Definition filesOnly :=
  run world
    (prepareRequest (lib := Plain.lib) Example.call "POST" Example.endpoint
       [WithFiles (Some theFiles)]) boot.
End Scenario.

(** ** Generic facts about programs and traces *)

Lemma run_exec (W : World) {R : Type} (p : Prog R) (s : St W) :
  exec p (traceOf (run W p s)) (resultOf (run W p s)).
Proof.
  revert s. induction p as [r | X e k IH]; intros s; simpl.
  - split; reflexivity.
  - destruct (answer W X e s) as [x s1] eqn:Ha.
    specialize (IH x s1).
    destruct (run W (k x) s1) as [[r t] s2] eqn:Hr.
    exists x, t. split; [reflexivity | exact IH].
Qed.

(** Every program has a run against every environment: the model never
    gets stuck. *)
Lemma exec_total (W : World) {R : Type} (p : Prog R) (s : St W) :
  exists t r, exec p t r.
Proof. eexists _, _. apply (run_exec W p s). Qed.

Lemma exec_bind {A B : Type} (p : Prog A) (f : A -> Prog B) t r :
  exec (bind p f) t r <->
  exists t1 a t2, exec p t1 a /\ exec (f a) t2 r /\ t = (t1 ++ t2)%list.
Proof.
  revert t. induction p as [a | X e k IH]; intros t; simpl.
  - split.
    + intros H. exists [], a, t. repeat split; assumption.
    + intros (t1 & a' & t2 & [-> ->] & H & ->). exact H.
  - split.
    + intros (x & t' & -> & H). apply IH in H as (t1 & a & t2 & H1 & H2 & ->).
      exists (E e x :: t1), a, t2. repeat split; try assumption.
      exists x, t1. split; [reflexivity | assumption].
    + intros (t1 & a & t2 & (x & t' & -> & H1) & H2 & ->).
      exists x, (t' ++ t2)%list. split; [reflexivity |].
      apply IH. exists t', a, t2. repeat split; assumption.
Qed.

Lemma append_assoc (a b c : string) : (a ++ b) ++ c = a ++ (b ++ c).
Proof.
  induction a as [| x a IH]; [reflexivity |].
  change (String x ((a ++ b) ++ c) = String x (a ++ (b ++ c))).
  f_equal; exact IH.
Qed.

Lemma spec_cacheKey_eq (m i p q : string) :
  Spec.cacheKey m i p q = m ++ "_" ++ i ++ "_" ++ (p ++ "?" ++ q).
Proof.
  unfold Spec.cacheKey.
  rewrite !append_assoc. reflexivity.
Qed.

Example prepare_example :
  resultOf (run (machine LocalCache (Example.answers 200) Example.noDisk)
              (prepareRequest (lib := Plain.lib) Example.call "GET" Example.endpoint
                 [Example.headers; Example.caching]) boot)
  = (Example.bound, Ok Example.request).
Proof. vm_compute. reflexivity. Qed.

(** Unfolding a run of a program effect by effect. *)
Ltac exec_inv H :=
  repeat (simpl in H;
    lazymatch type of H with
    | _ = [] /\ _ = _ => destruct H as [-> H]; simplify_eq
    | exists x t', _ =>
        let x := fresh "x" in
        let t := fresh "t" in
        destruct H as (x & t & -> & H); try destruct x
    | exec (bind (match ?x with _ => _ end) _) _ _ => destruct x eqn:?
    | exec (bind (bind (match ?x with _ => _ end) _) _) _ _ => destruct x eqn:?
    | exec (bind (bind (bind (match ?x with _ => _ end) _) _) _) _ _ => destruct x eqn:?
    | exec (match ?x with _ => _ end) _ _ => destruct x eqn:?
    end).

(** ** The cache glue of [executeRequest] *)

(** Under a binding, an execution looks the cache up once, under the
    key of the specification, and every key it hands to the cache is
    that one. *)
Lemma keys_under_binding (h : easyRequest.t) (req : http.Request) f c t r :
  binding h = Some (f, c) ->
  exec (executeRequest h req) t r ->
  lookups t = [(f, keyOf req c)] /\
  (forall f' k v ttl, (f', k, v, ttl) ∈ stores t -> k = keyOf req c) /\
  (forall k, k ∈ cacheKeys t -> k = keyOf req c).
Proof.
  intros Hb H. unfold keyOf. rewrite spec_cacheKey_eq.
  unfold executeRequest, profile in H. rewrite Hb in H.
  exec_inv H; (split; [reflexivity | split]); cbn;
    intros; repeat match goal with
              | Hin : _ ∈ _ :: _ |- _ => apply elem_of_cons in Hin as [Hin | Hin]
              | Hin : _ ∈ [] |- _ => apply elem_of_nil in Hin; contradiction
              end; congruence.
Qed.

(** C2. With a binding of idempotency tag [i] attached, the one lookup
    and every store of an execution use the key
    method + "_" + i + "_" + path + "?" + rawQuery, and two executions
    that agree on method, tag, path and raw query use the same key. *)
Theorem cache_key_formula (h : easyRequest.t) (req : http.Request) f c t r :
  binding h = Some (f, c) ->
  exec (executeRequest h req) t r ->
  lookups t = [(f, Spec.cacheKey (http.Method req) (idempotency c)
                     (url.Path (http.URL req)) (url.RawQuery (http.URL req)))] /\
  (forall f' k v ttl,
      (f', k, v, ttl) ∈ stores t ->
      k = Spec.cacheKey (http.Method req) (idempotency c)
            (url.Path (http.URL req)) (url.RawQuery (http.URL req))) /\
  (forall h' req' f' c' t' r',
      binding h' = Some (f', c') ->
      exec (executeRequest h' req') t' r' ->
      http.Method req' = http.Method req ->
      idempotency c' = idempotency c ->
      url.Path (http.URL req') = url.Path (http.URL req) ->
      url.RawQuery (http.URL req') = url.RawQuery (http.URL req) ->
      forall k k', k ∈ cacheKeys t -> k' ∈ cacheKeys t' -> k = k').
Proof.
  intros Hb H. destruct (keys_under_binding _ _ _ _ _ _ Hb H) as (Hl & Hs & Hk).
  split; [exact Hl | split; [exact Hs |]].
  intros h' req' f' c' t' r' Hb' H' Hm Hi Hp Hq k k' Hin Hin'.
  destruct (keys_under_binding _ _ _ _ _ _ Hb' H') as (_ & _ & Hk').
  rewrite (Hk _ Hin), (Hk' _ Hin'). unfold keyOf. congruence.
Qed.

(** A hit never reaches the transport, whatever the cached value is. *)
Lemma hit_skips_transport (h : easyRequest.t) (req : http.Request) t r cached :
  exec (executeRequest h req) t r ->
  getReplies t = [(cached, None)] ->
  doCount t = 0 /\ stores t = [].
Proof.
  intros H Hhit. unfold executeRequest, profile in H.
  exec_inv H; cbn in Hhit; try discriminate; split; reflexivity.
Qed.

(** A hit whose cached value decodes into an envelope returns that
    envelope, marked as served from the cache, under the computed key. *)
Lemma hit_returns_cached (h : easyRequest.t) (req : http.Request) f c t r cached data :
  binding h = Some (f, c) ->
  exec (executeRequest h req) t r ->
  getReplies t = [(cached, None)] ->
  toStruct cached = Some data ->
  r = Returned (Some (mkHttpResponse (method data) (keyOf req c) true
                        (StatusCode data) (Body data)), None).
Proof.
  intros Hb H Hhit Hdata. unfold keyOf. rewrite spec_cacheKey_eq.
  unfold executeRequest, profile in H. rewrite Hb in H.
  exec_inv H; cbn in Hhit; simplify_eq; reflexivity.
Qed.

(** A hit whose cached value does not decode into an envelope (a nil
    value, or one [json.Marshal] refuses) ends in a panic, for every
    client and request. *)
Lemma hit_without_envelope_panics (h : easyRequest.t) (req : http.Request) t r cached :
  exec (executeRequest h req) t r ->
  getReplies t = [(cached, None)] ->
  toStruct cached = None ->
  r = Panicked "invalid memory address or nil pointer dereference".
Proof.
  intros H Hhit Hnone. unfold executeRequest, profile in H.
  destruct (binding h) as [[f c] |] eqn:Hb;
    exec_inv H; cbn in Hhit; simplify_eq; reflexivity.
Qed.

Example toStruct_nil : toStruct VNil = None.
Proof. reflexivity. Qed.

Example toStruct_nil_pointer : toStruct (VHttpResponse None) = None.
Proof. reflexivity. Qed.

Example toStruct_unsupported : toStruct VFunc = None.
Proof. reflexivity. Qed.

Example toStruct_string : toStruct (VString "cached") = Some zeroHttpResponse.
Proof. reflexivity. Qed.

(** C1. A cache whose [Get] answers [nil, nil]: the lookup returns
    without error, the transport is not invoked, and [executeRequest]
    does not return an envelope: it dereferences the nil pointer that
    [toStruct] hands back. *)
Theorem hit_on_nil_panics :
  let out := run (machine NilCache (Example.answers 200) Example.noDisk)
               (executeRequest Example.bound Example.request) boot in
  getReplies (traceOf out) = [(VNil, None)] /\
  doCount (traceOf out) = 0 /\
  resultOf out = Panicked "invalid memory address or nil pointer dereference".
Proof. vm_compute. repeat split; reflexivity. Qed.

(** C7. Whenever an execution stores into the cache, it returns the full
    envelope and a nil error, whatever the store answered. *)
Theorem store_failure_swallowed (h : easyRequest.t) (req : http.Request) t r answer :
  exec (executeRequest h req) t r ->
  setReplies t = [answer] ->
  exists f c resp body,
    binding h = Some (f, c) /\
    doReplies t = [Ok resp] /\
    readReplies t = [(body, None)] /\
    r = Returned (Some (mkHttpResponse (http.Method req) (keyOf req c) false
                          (http.StatusCode resp) (Some body)), None).
Proof.
  intros H Hset. unfold executeRequest, profile in H.
  destruct (binding h) as [[f c] |] eqn:Hb;
    exec_inv H; cbn in Hset; try discriminate;
    eexists _, _, _, _; repeat split;
    unfold keyOf; rewrite ?spec_cacheKey_eq; reflexivity.
Qed.

(** C8. When the transport answers and the read of the body fails, the
    execution returns both an envelope (the method, the status code of
    the response, no body) and the read error. *)
Theorem read_failure_partial (h : easyRequest.t) (req : http.Request) t r resp body err :
  exec (executeRequest h req) t r ->
  doReplies t = [Ok resp] ->
  readReplies t = [(body, Some err)] ->
  r = Returned (Some (mkHttpResponse (http.Method req) "" false
                        (http.StatusCode resp) None), Some err).
Proof.
  intros H Hdo Hread. unfold executeRequest, profile in H.
  destruct (binding h) as [[f c] |] eqn:Hb;
    exec_inv H; cbn in Hdo, Hread; try discriminate;
    injection Hdo as ->; injection Hread as -> ->; reflexivity.
Qed.

(** C4 as it is written fails on the body-read failure of a 200
    response under a binding: the lookup misses, the transport answers
    200, and nothing is stored. *)
Lemma store_iff_200_201_fails : ~ AsStated.store_iff_200_201.
Proof.
  intros claim.
  pose (out := run (machine LocalCache (Example.breaks 200) Example.noDisk)
                 (executeRequest Example.bound Example.request) boot).
  assert (Hx : exec (executeRequest Example.bound Example.request)
                 (traceOf out) (resultOf out)) by apply run_exec.
  specialize (claim Example.bound Example.request Example.theCache
                (mkCacheObj (Some Example.theCache) (5 * Example.minute) "json")
                (traceOf out) (resultOf out) VNil "key not found"
                (http.mkResponse 200 0) eq_refl Hx eq_refl eq_refl).
  destruct claim as [_ claim].
  apply claim; [left; reflexivity | reflexivity].
Qed.

(** C4, amended. Under a binding, after a miss, once the transport has
    answered and the body has been read: a store is performed exactly
    when the status code is 200 or 201, and then it is the only one,
    under the computed key with the ttl of the binding, and what it
    stores is the envelope the call returns, with a nil error; a 404
    stores nothing; and nothing is stored either when the read of the
    body fails. *)
Theorem store_on_200_201 (h : easyRequest.t) (req : http.Request)
    f c t r cached err resp :
  binding h = Some (f, c) ->
  exec (executeRequest h req) t r ->
  getReplies t = [(cached, Some err)] ->
  doReplies t = [Ok resp] ->
  (forall body, readReplies t = [(body, None)] ->
     (stores t <> [] <-> Spec.cacheable (http.StatusCode resp)) /\
     (Spec.cacheable (http.StatusCode resp) ->
        exists envelope,
          r = Returned (Some envelope, None) /\
          stores t = [(f, keyOf req c, VHttpResponse (Some envelope), expiry c)] /\
          envelope = mkHttpResponse (http.Method req) (keyOf req c) false
                       (http.StatusCode resp) (Some body)) /\
     (http.StatusCode resp = 404%Z -> stores t = [])) /\
  (forall body e, readReplies t = [(body, Some e)] -> stores t = []).
Proof.
  intros Hb H Hmiss Hdo. unfold keyOf, Spec.cacheable. rewrite spec_cacheKey_eq.
  unfold executeRequest, profile in H. rewrite Hb in H.
  exec_inv H; cbn in Hmiss, Hdo; simplify_eq;
    (split; [intros body' Hread | intros body' e' Hread]);
    cbn in Hread; simplify_eq; try reflexivity;
    match goal with
    | Hc : (_ || _) = _ |- _ =>
        unfold http.StatusOK, http.StatusCreated in Hc;
        first [ apply orb_true_iff in Hc | apply orb_false_iff in Hc ];
        rewrite ?bool_decide_eq_true, ?bool_decide_eq_false in Hc
    end; cbn.
  all: repeat split; try reflexivity; try tauto; try congruence; try lia.
  all: try (intros; exfalso; lia).
  all: intros _; eexists; repeat split.
Qed.

(** ** The request builder *)

(** C6. With Content-Type application/x-www-form-urlencoded and a
    payload that is present but is not a [map[string]string],
    [prepareRequest] fails with the type-mismatch error having performed
    no effect at all, and the public call returns that error without
    reaching the transport. *)
Theorem form_payload_mismatch {lib : GoLib} (h : easyRequest.t) (method_ : string)
    (opts : list TReqOption) :
  let options := applyOpts opts freshOptions in
  ReqOptions.headers options !! "Content-Type"
    = Some "application/x-www-form-urlencoded" ->
  isNil (ReqOptions.payload options) = false ->
  asMapStrStr (ReqOptions.payload options) = None ->
  (forall endpoint t res,
      exec (prepareRequest h method_ endpoint opts) t res ->
      t = [] /\
      res = (h, Err "payload should be a map[string]string for x-www-form-urlencoded")) /\
  (forall t res,
      exec (Custom h method_ opts) t res ->
      doCount t = 0 /\ t = [] /\
      res = (h, Returned (None,
                  Some "payload should be a map[string]string for x-www-form-urlencoded"))).
Proof.
  intros options Hct Hnil Hmap.
  assert (Hprep : forall endpoint,
             prepareRequest h method_ endpoint opts
             = Ret (h, Err "payload should be a map[string]string for x-www-form-urlencoded")).
  { intros endpoint. unfold prepareRequest, encodePayload.
    fold options. rewrite Hct, Hnil, Hmap. reflexivity. }
  split.
  - intros endpoint t res H. rewrite Hprep in H. destruct H as [-> ->].
    split; reflexivity.
  - intros t res H. unfold Custom in H. rewrite Hprep in H.
    destruct H as [-> ->]. repeat split; reflexivity.
Qed.

(** C10. With Content-Type multipart/form-data, a file mapping and no
    payload, [prepareRequest] fails with the multipart shape-mismatch
    error before any boundary is drawn or any file is opened, and the
    public call returns that error without reaching the transport. *)
Theorem multipart_files_without_payload {lib : GoLib} (h : easyRequest.t)
    (method_ : string) (opts : list TReqOption) (files : gmap string string) :
  let options := applyOpts opts freshOptions in
  ReqOptions.headers options !! "Content-Type" = Some "multipart/form-data" ->
  ReqOptions.files options = Some files ->
  ReqOptions.payload options = VNil ->
  (forall endpoint t res,
      exec (prepareRequest h method_ endpoint opts) t res ->
      t = [] /\
      res = (h, Err "payload should be a map[string]string for multipart/form-data")) /\
  (forall t res,
      exec (Custom h method_ opts) t res ->
      doCount t = 0 /\ t = [] /\
      res = (h, Returned (None,
                  Some "payload should be a map[string]string for multipart/form-data"))).
Proof.
  intros options Hct Hfiles Hnil.
  assert (Hprep : forall endpoint,
             prepareRequest h method_ endpoint opts
             = Ret (h, Err "payload should be a map[string]string for multipart/form-data")).
  { intros endpoint. unfold prepareRequest, encodePayload.
    fold options. rewrite Hct, Hfiles, Hnil. reflexivity. }
  split.
  - intros endpoint t res H. rewrite Hprep in H. destruct H as [-> ->].
    split; reflexivity.
  - intros t res H. unfold Custom in H. rewrite Hprep in H.
    destruct H as [-> ->]. repeat split; reflexivity.
Qed.

Lemma values_Add (h : gmap string (list string)) (k v K : string) :
  default [] (url.Add h k v !! K)
  = (default [] (h !! K) ++ (if decide (k = K) then [v] else []))%list.
Proof.
  unfold url.Add. destruct (decide (k = K)) as [-> | Hne].
  - rewrite lookup_insert_eq. reflexivity.
  - rewrite lookup_insert_ne by exact Hne. rewrite app_nil_r. reflexivity.
Qed.

(** The values recorded under a canonical key after the headers of the
    options have been added, in the order they were visited. *)
Lemma values_fold_Add (l : list (string * string)) (h : gmap string (list string)) (K : string) :
  default [] (fold_left (fun hd kv => header.Add hd (fst kv) (snd kv)) l h !! K)
  = (default [] (h !! K)
     ++ List.map snd
          (List.filter
             (fun kv => bool_decide (textproto.CanonicalMIMEHeaderKey (fst kv) = K)) l))%list.
Proof.
  revert h. induction l as [| [k v] l IH]; intros h; simpl.
  - rewrite app_nil_r. reflexivity.
  - rewrite IH. unfold header.Add. rewrite values_Add.
    destruct (decide (textproto.CanonicalMIMEHeaderKey k = K)) as [Heq | Hne].
    + rewrite bool_decide_eq_true_2 by exact Heq. simpl.
      rewrite <- app_assoc. reflexivity.
    + rewrite bool_decide_eq_false_2 by exact Hne.
      rewrite app_nil_r. reflexivity.
Qed.

Lemma filter_none {A : Type} (f : A -> bool) (l : list A) :
  (forall x, In x l -> f x = false) -> List.filter f l = [].
Proof.
  induction l as [| a l IH]; intros Hf; simpl; [reflexivity |].
  rewrite (Hf a) by (left; reflexivity).
  apply IH. intros x Hx. apply Hf. right. exact Hx.
Qed.

Lemma canonical_content_type :
  textproto.CanonicalMIMEHeaderKey "Content-Type" = "Content-Type".
Proof. vm_compute. reflexivity. Qed.

(** Outside the multipart case the encoder leaves the headers alone. *)
Lemma encodePayload_headers {lib : GoLib} (o : ReqOptions.t) t body hs :
  exec (encodePayload o) t (Ok (body, hs)) ->
  ReqOptions.headers o !! "Content-Type" <> Some "multipart/form-data" ->
  hs = ReqOptions.headers o.
Proof.
  intros H Hct. unfold encodePayload in H.
  destruct (negb (isNil (ReqOptions.payload o))
            || bool_decide (ReqOptions.files o <> None)).
  2: { exec_inv H. reflexivity. }
  destruct (decide (default "" (ReqOptions.headers o !! "Content-Type")
                    = "application/x-www-form-urlencoded")).
  { exec_inv H; reflexivity. }
  destruct (decide (default "" (ReqOptions.headers o !! "Content-Type")
                    = "multipart/form-data")) as [Heq | _].
  { exfalso. apply Hct.
    destruct (ReqOptions.headers o !! "Content-Type"); simpl in Heq; congruence. }
  destruct (decide (default "" (ReqOptions.headers o !! "Content-Type")
                    = "application/xml")).
  { exec_inv H; reflexivity. }
  exec_inv H; reflexivity.
Qed.

(** With the content type unset or application/json, a payload that is
    present becomes the body through [json.Marshal]. *)
Lemma encodePayload_json {lib : GoLib} (o : ReqOptions.t) t body hs :
  exec (encodePayload o) t (Ok (body, hs)) ->
  isNil (ReqOptions.payload o) = false ->
  ReqOptions.headers o !! "Content-Type" = None \/
  ReqOptions.headers o !! "Content-Type" = Some "application/json" ->
  exists byts, json_Marshal (ReqOptions.payload o) = Ok byts /\ body = Some byts.
Proof.
  intros H Hnil Hct. unfold encodePayload in H. rewrite Hnil in H.
  destruct Hct as [Hct | Hct]; rewrite Hct in H; simpl in H;
    destruct (json_Marshal (ReqOptions.payload o)) as [byts | err];
    exec_inv H; simplify_eq; eexists; split; reflexivity.
Qed.

(** A header spelled in another casing does not count as a Content-Type
    for the default: the request then carries both values. *)
Example lower_case_content_type :
  let out := run (machine LocalCache (Example.answers 200) Example.noDisk)
               (prepareRequest (lib := Plain.lib) Example.call "GET" Example.endpoint
                  [WithHeaders {["content-type" := "text/plain"]}]) boot in
  exists req,
    snd (resultOf out) = Ok req /\
    header.Values (http.Header req) "Content-Type" = ["text/plain"; "application/json"].
Proof. eexists. vm_compute. split; reflexivity. Qed.

(** C9. In a request that [prepareRequest] has built: when the options
    carry no Content-Type header the request carries
    Content-Type: application/json, and it is the only value of that
    header unless some header of the options is spelled as another
    casing of Content-Type; and a payload that is present, with the
    content type unset or application/json, is the body as
    [json.Marshal] encodes it. *)
Theorem default_content_type_json {lib : GoLib} (h : easyRequest.t)
    (method_ endpoint : string) (opts : list TReqOption) t h' req :
  let options := applyOpts opts freshOptions in
  exec (prepareRequest h method_ endpoint opts) t (h', Ok req) ->
  (ReqOptions.headers options !! "Content-Type" = None ->
     "application/json" ∈ header.Values (http.Header req) "Content-Type" /\
     ((forall k v, ReqOptions.headers options !! k = Some v ->
                   textproto.CanonicalMIMEHeaderKey k <> "Content-Type") ->
      header.Values (http.Header req) "Content-Type" = ["application/json"])) /\
  (isNil (ReqOptions.payload options) = false ->
   ReqOptions.headers options !! "Content-Type" = None \/
   ReqOptions.headers options !! "Content-Type" = Some "application/json" ->
   exists byts,
     json_Marshal (ReqOptions.payload options) = Ok byts /\
     http.Body req = Some byts).
Proof.
  intros options H. unfold prepareRequest in H. fold options in H.
  apply exec_bind in H as (t1 & encoded & t2 & Henc & H & ->).
  destruct encoded as [[body hs] | err]; [| exec_inv H; discriminate].
  destruct (NewRequest method_ endpoint body) as [req0 | err] eqn:Hnew;
    [| exec_inv H; discriminate].
  assert (Hreq0 : http.Header req0 = ∅ /\ http.Body req0 = body).
  { unfold NewRequest in Hnew.
    destruct (negb _); [discriminate |].
    destruct (url_Parse endpoint); [| discriminate].
    injection Hnew as <-. split; reflexivity. }
  destruct Hreq0 as [Hhdr0 Hbody0].
  simpl in H. destruct H as [_ H]. injection H as _ ->. simpl.
  split.
  - intros Hct.
    assert (Hhs : hs = ReqOptions.headers options).
    { apply (encodePayload_headers _ _ _ _ Henc). rewrite Hct. discriminate. }
    subst hs. rewrite Hct.
    match goal with
    | |- _ ∈ ?vals /\ _ =>
        assert (Hvals : vals =
          (List.map snd
             (List.filter
                (fun kv => bool_decide
                             (textproto.CanonicalMIMEHeaderKey (fst kv) = "Content-Type"))
                (range (ReqOptions.headers options)))
           ++ ["application/json"])%list)
    end.
    { unfold header.Values, header.Add at 1.
      rewrite canonical_content_type, values_Add, values_fold_Add, Hhdr0.
      rewrite lookup_empty, decide_True by reflexivity. reflexivity. }
    rewrite Hvals. split.
    + apply elem_of_app. right. apply list_elem_of_here.
    + intros Hnone.
      match goal with
      | |- (List.map snd ?l ++ _)%list = _ =>
          assert (Hl : l = []); [| rewrite Hl; reflexivity]
      end.
      apply filter_none. intros [k v] Hin.
      apply bool_decide_eq_false_2. apply (Hnone k v).
      apply elem_of_map_to_list. rewrite <- (range_perm (ReqOptions.headers options)).
      apply list_elem_of_In. exact Hin.
  - intros Hnil Hct.
    destruct (encodePayload_json _ _ _ _ Henc Hnil Hct) as (byts & Hm & ->).
    exists byts. split; [exact Hm | exact Hbody0].
Qed.

(** ** The binding and the client *)

Lemma quiet_nil : quiet [].
Proof. split; reflexivity. Qed.

Lemma quiet_app (t1 t2 : Trace) : quiet t1 -> quiet t2 -> quiet (t1 ++ t2).
Proof.
  unfold quiet, cacheKeys, doCount. intros [Hk1 Hd1] [Hk2 Hd2].
  rewrite omap_app, filter_app, length_app, Hk1, Hk2, Hd1, Hd2.
  split; reflexivity.
Qed.

Lemma closeAll_quiet (opened : list File) t r :
  exec (closeAll opened) t r -> quiet t.
Proof.
  revert t. induction opened as [| f rest IH]; intros t H.
  - exec_inv H. apply quiet_nil.
  - simpl in H. destruct H as (x & t' & -> & H).
    apply (quiet_app [_] t'); [split; reflexivity | apply IH; exact H].
Qed.

Lemma writeFiles_quiet {lib : GoLib} (files : list (string * string)) parts opened t r :
  exec (writeFiles files parts opened) t r -> quiet t.
Proof.
  revert parts opened t.
  induction files as [| [filename filePath] rest IH]; intros parts opened t H.
  - exec_inv H. apply quiet_nil.
  - simpl in H. destruct H as (file & t1 & -> & H).
    destruct file as [file | err].
    + simpl in H. destruct H as (copied & t2 & -> & H).
      destruct copied as [content | err].
      * apply (quiet_app [_; _] t2); [split; reflexivity |]. eapply IH. exact H.
      * exec_inv H. split; reflexivity.
    + exec_inv H. split; reflexivity.
Qed.

Lemma handleMultipartFormData_quiet {lib : GoLib} payload files t r :
  exec (handleMultipartFormData payload files) t r -> quiet t.
Proof.
  unfold handleMultipartFormData. intros H. simpl in H.
  destruct H as (boundary & t1 & -> & H).
  apply exec_bind in H as (t2 & written & t3 & Hw & H & ->).
  apply exec_bind in H as (t4 & u & t5 & Hc & H & ->).
  apply (quiet_app [_]); [split; reflexivity |].
  apply quiet_app; [eapply writeFiles_quiet; exact Hw |].
  apply quiet_app; [eapply closeAll_quiet; exact Hc |].
  destruct (fst written); exec_inv H; apply quiet_nil.
Qed.

Lemma encodePayload_quiet {lib : GoLib} (o : ReqOptions.t) t r :
  exec (encodePayload o) t r -> quiet t.
Proof.
  unfold encodePayload. intros H.
  destruct (negb (isNil (ReqOptions.payload o))
            || bool_decide (ReqOptions.files o <> None)).
  2: { exec_inv H. apply quiet_nil. }
  destruct (decide (_ = "application/x-www-form-urlencoded")).
  { exec_inv H; apply quiet_nil. }
  destruct (decide (_ = "multipart/form-data")).
  { destruct (asMapStrStr (ReqOptions.payload o)); [| exec_inv H; apply quiet_nil].
    apply exec_bind in H as (t1 & res & t2 & Hm & H & ->).
    apply quiet_app; [eapply handleMultipartFormData_quiet; exact Hm |].
    destruct res as [[b ct] | err]; exec_inv H; apply quiet_nil. }
  destruct (decide (_ = "application/xml")).
  { exec_inv H; apply quiet_nil. }
  exec_inv H; apply quiet_nil.
Qed.

(** [prepareRequest] reaches neither the cache nor the transport, and
    hands the client back as it was unless the options carry a binding
    with a capability. *)
Lemma prepareRequest_quiet {lib : GoLib} (h : easyRequest.t) method_ endpoint opts t h' res :
  exec (prepareRequest h method_ endpoint opts) t (h', res) ->
  quiet t /\
  (h' = h \/
   exists f c, ReqOptions.cacheObj (applyOpts opts freshOptions) = Some c /\
               fncs c = Some f /\ h' = easyRequest.set_cacheObj h (Some c)).
Proof.
  unfold prepareRequest. intros H.
  apply exec_bind in H as (t1 & encoded & t2 & Henc & H & ->).
  apply encodePayload_quiet in Henc.
  destruct encoded as [[body hs] | err].
  - destruct (NewRequest method_ endpoint body) as [req | err].
    + simpl in H. destruct H as [-> H]. rewrite app_nil_r. split; [exact Henc |].
      destruct (ReqOptions.cacheObj (applyOpts opts freshOptions)) as [c |];
        [destruct (fncs c) as [f |] eqn:Hf |]; simplify_eq; eauto 10.
    + exec_inv H. rewrite app_nil_r. split; [exact Henc | left; reflexivity].
  - exec_inv H. rewrite app_nil_r. split; [exact Henc | left; reflexivity].
Qed.

(** With no binding attached, an execution leaves the cache alone and
    the envelope it returns has an empty cache key. *)
Lemma executeRequest_unbound (h : easyRequest.t) (req : http.Request) t r :
  binding h = None ->
  exec (executeRequest h req) t r ->
  cacheKeys t = [] /\
  forall envelope err, r = Returned (Some envelope, err) -> CacheKey envelope = "".
Proof.
  intros Hb H. unfold executeRequest, profile in H. rewrite Hb in H.
  exec_inv H; (split; [reflexivity |]); intros envelope e' Hr; simplify_eq; reflexivity.
Qed.

(** The sentence on the ownership of a binding fails on two calls
    through one client, the first with a binding and the second
    without: the second consults the cache and is served from it. *)
Lemma binding_owned_by_call_fails : ~ AsStated.binding_owned_by_call.
Proof.
  intros claim.
  specialize (claim Plain.lib
                (machine LocalCache (Example.answers 200) Example.noDisk) boot
                Example.call "GET" "GET"
                [Example.headers; Example.caching] [Example.headers] eq_refl).
  destruct claim as [claim _]. vm_compute in claim. discriminate claim.
Qed.

Lemma quiet_lookups (t : Trace) : cacheKeys t = [] -> lookups t = [] /\ stores t = [].
Proof.
  induction t as [| [X e x] t IH]; intros H; [split; reflexivity |].
  destruct e; cbn in H; try discriminate; apply IH in H as [Hl Hs];
    split; cbn; assumption.
Qed.

(** A call made without a cache binding leaves the client as it was,
    binding included. When the client has no binding attached from an
    earlier call, the call does not consult the cache, stores nothing,
    and the envelope it returns has an empty cache key. When an earlier
    call has attached one, nothing has reset it: a call that returns an
    envelope has looked the cache up through it. *)
Lemma later_call_keeps_binding {lib : GoLib} (h : easyRequest.t) (method_ : string)
    (opts : list TReqOption) t h' r :
  ReqOptions.cacheObj (applyOpts opts freshOptions) = None ->
  exec (Custom h method_ opts) t (h', r) ->
  h' = h /\
  (binding h = None ->
     cacheKeys t = [] /\
     forall envelope err, r = Returned (Some envelope, err) -> CacheKey envelope = "") /\
  (forall f c envelope err,
     binding h = Some (f, c) ->
     r = Returned (Some envelope, err) ->
     exists req, lookups t = [(f, keyOf req c)]).
Proof.
  intros Hopts H. unfold Custom in H.
  apply exec_bind in H as (t1 & [h1 res] & t2 & Hprep & H & ->).
  apply prepareRequest_quiet in Hprep as ([Hk1 _] & Hh1).
  assert (h1 = h) as ->.
  { destruct Hh1 as [-> | (f & c & Hc & _)]; [reflexivity | congruence]. }
  destruct res as [req | err]; cbn [fst snd] in H.
  - apply exec_bind in H as (t3 & out & t4 & Hexec & H & ->).
    exec_inv H. split; [reflexivity | split].
    + intros Hb.
      destruct (executeRequest_unbound _ _ _ _ Hb Hexec) as [Hk3 Henv].
      split; [| exact Henv].
      unfold cacheKeys in *. rewrite !omap_app, Hk1, Hk3. reflexivity.
    + intros f c envelope e' Hb _. exists req.
      destruct (keys_under_binding _ _ _ _ _ _ Hb Hexec) as (Hl & _ & _).
      destruct (quiet_lookups _ Hk1) as [Hl1 _].
      unfold lookups in *. rewrite !omap_app, Hl1, Hl. reflexivity.
  - exec_inv H. split; [reflexivity | split].
    + intros _. split; [| intros; discriminate].
      unfold cacheKeys in *. rewrite omap_app, Hk1. reflexivity.
    + intros; discriminate.
Qed.

(** C3. The binding given to one call is not given back when the call
    is over. On a client that starts with no binding, after one
    [Get] with [WithCache], a [Post] whose options carry no binding
    looks the cache up and stores into it through the binding of the
    earlier call, and returns an envelope whose cache key is not empty;
    the same [Post] issued again never reaches the transport and is
    served from the cache. *)
Theorem binding_leaks_to_later_call :
  binding Example.call = None /\
  ReqOptions.cacheObj (applyOpts Example.bareOpts freshOptions) = None /\
  lookups (traceOf Example.laterPost) = [(Example.theCache, "POST_json_/json?")] /\
  (exists envelope,
     snd (resultOf Example.laterPost) = Returned (Some envelope, None) /\
     CacheKey envelope = "POST_json_/json?" /\
     stores (traceOf Example.laterPost)
     = [(Example.theCache, "POST_json_/json?", VHttpResponse (Some envelope),
         (5 * Example.minute)%Z)]) /\
  doCount (traceOf Example.laterPost) = 1 /\
  doCount (traceOf Example.lastPost) = 0 /\
  (exists envelope,
     snd (resultOf Example.lastPost) = Returned (Some envelope, None) /\
     FromCache envelope = true /\
     CacheKey envelope = "POST_json_/json?").
Proof.
  split; [reflexivity |]. split; [reflexivity |].
  split; [vm_compute; reflexivity |].
  split.
  { eexists. split; [vm_compute; reflexivity |].
    split; vm_compute; reflexivity. }
  split; [vm_compute; reflexivity |]. split; [vm_compute; reflexivity |].
  eexists. split; [vm_compute; reflexivity |]. split; reflexivity.
Qed.

(** ** The round trip of [toStruct] *)

Lemma list_ind3 {A : Type} (P : list A -> Prop) :
  P [] -> (forall a, P [a]) -> (forall a b, P [a; b]) ->
  (forall a b c l, P l -> P (a :: b :: c :: l)) ->
  forall l, P l.
Proof.
  intros H0 H1 H2 H3.
  assert (H : forall l, P l /\ (forall a, P (a :: l)) /\ (forall a b, P (a :: b :: l))).
  { induction l as [| x l (IH0 & IH1 & IH2)].
    - repeat split; auto.
    - repeat split; auto. }
  intros l. apply H.
Qed.

Lemma sextet_cases (P : N -> Prop) :
  (forall k : nat, (k < 64)%nat -> P (N.of_nat k)) ->
  forall n, (n < 64)%N -> P n.
Proof.
  intros H n Hn. rewrite <- (N2Nat.id n). apply H. lia.
Qed.

Lemma dec_enc (n : N) : (n < 64)%N -> base64.dec (base64.enc n) = Some n.
Proof.
  revert n. apply sextet_cases. intros k Hk.
  do 64 (destruct k as [| k]; [vm_compute; reflexivity |]). lia.
Qed.

Lemma isPad_enc (n : N) : (n < 64)%N -> base64.isPad (base64.enc n) = false.
Proof.
  revert n. apply sextet_cases. intros k Hk.
  do 64 (destruct k as [| k]; [vm_compute; reflexivity |]). lia.
Qed.

Lemma isNewline_enc (n : N) : (n < 64)%N -> base64.isNewline (base64.enc n) = false.
Proof.
  revert n. apply sextet_cases. intros k Hk.
  do 64 (destruct k as [| k]; [vm_compute; reflexivity |]). lia.
Qed.

Lemma byteN_to_N (a : byte) : base64.byteN (Byte.to_N a) = a.
Proof.
  unfold base64.byteN. pose proof (Byte.to_N_bounded a) as Hb.
  rewrite N.mod_small by lia. rewrite Byte.of_to_N. reflexivity.
Qed.

Section arith.
Local Ltac Zify.zify_post_hook ::= Z.to_euclidean_division_equations.
Local Open Scope N_scope.

Lemma sextets_bound (x y z : N) :
  x <= 255 -> y <= 255 -> z <= 255 ->
  x / 4 < 64 /\ (x mod 4) * 16 + y / 16 < 64 /\ (y mod 16) * 4 + z / 64 < 64 /\
  z mod 64 < 64 /\ (x mod 4) * 16 < 64 /\ (y mod 16) * 4 < 64.
Proof. intros. repeat split; lia. Qed.

Lemma sextets_back (x y z : N) :
  x <= 255 -> y <= 255 -> z <= 255 ->
  (x / 4) * 4 + ((x mod 4) * 16 + y / 16) / 16 = x /\
  (((x mod 4) * 16 + y / 16) mod 16) * 16 + ((y mod 16) * 4 + z / 64) / 4 = y /\
  (((y mod 16) * 4 + z / 64) mod 4) * 64 + z mod 64 = z /\
  (x / 4) * 4 + ((x mod 4) * 16) / 16 = x /\
  (((x mod 4) * 16 + y / 16) mod 16) * 16 + ((y mod 16) * 4) / 4 = y.
Proof. intros. repeat split; lia. Qed.
End arith.

Lemma quanta_encode (bs : list byte) :
  base64.quanta (list_ascii_of_string (base64.EncodeToString bs)) = Some bs.
Proof.
  induction bs as [| a | a b | a b c l IH] using list_ind3.
  - reflexivity.
  - pose proof (Byte.to_N_bounded a) as Ha.
    destruct (sextets_bound (Byte.to_N a) 0 0) as (B0 & _ & _ & _ & B1 & _); try lia.
    destruct (sextets_back (Byte.to_N a) 0 0) as (_ & _ & _ & E0 & _); try lia.
    cbn [base64.EncodeToString list_ascii_of_string base64.quanta].
    rewrite !dec_enc by assumption.
    change (base64.isPad "="%char) with true. cbn iota.
    rewrite E0, byteN_to_N. reflexivity.
  - pose proof (Byte.to_N_bounded a) as Ha. pose proof (Byte.to_N_bounded b) as Hb.
    destruct (sextets_bound (Byte.to_N a) (Byte.to_N b) 0) as (B0 & B1 & _ & _ & _ & B2); try lia.
    destruct (sextets_back (Byte.to_N a) (Byte.to_N b) 0) as (E0 & _ & _ & _ & E1); try lia.
    cbn [base64.EncodeToString list_ascii_of_string base64.quanta].
    rewrite !dec_enc by assumption.
    rewrite (isPad_enc _ B2).
    change (base64.isPad "="%char) with true. cbn iota.
    rewrite E0, E1, !byteN_to_N. reflexivity.
  - pose proof (Byte.to_N_bounded a) as Ha. pose proof (Byte.to_N_bounded b) as Hb.
    pose proof (Byte.to_N_bounded c) as Hc.
    destruct (sextets_bound (Byte.to_N a) (Byte.to_N b) (Byte.to_N c))
      as (B0 & B1 & B2 & B3 & _ & _); try lia.
    destruct (sextets_back (Byte.to_N a) (Byte.to_N b) (Byte.to_N c))
      as (E0 & E1 & E2 & _ & _); try lia.
    cbn [base64.EncodeToString list_ascii_of_string base64.quanta].
    fold base64.quanta.
    rewrite !dec_enc by assumption.
    rewrite (isPad_enc _ B2), (isPad_enc _ B3). cbn iota.
    rewrite IH, E0, E1, E2, !byteN_to_N. reflexivity.
Qed.

Lemma encode_no_newline (bs : list byte) :
  List.filter (fun c => negb (base64.isNewline c))
    (list_ascii_of_string (base64.EncodeToString bs))
  = list_ascii_of_string (base64.EncodeToString bs).
Proof.
  induction bs as [| a | a b | a b c l IH] using list_ind3.
  - reflexivity.
  - pose proof (Byte.to_N_bounded a) as Ha.
    destruct (sextets_bound (Byte.to_N a) 0 0) as (B0 & _ & _ & _ & B1 & _); try lia.
    cbn [base64.EncodeToString list_ascii_of_string List.filter].
    rewrite !isNewline_enc by assumption. reflexivity.
  - pose proof (Byte.to_N_bounded a) as Ha. pose proof (Byte.to_N_bounded b) as Hb.
    destruct (sextets_bound (Byte.to_N a) (Byte.to_N b) 0) as (B0 & B1 & _ & _ & _ & B2); try lia.
    cbn [base64.EncodeToString list_ascii_of_string List.filter].
    rewrite !isNewline_enc by assumption. reflexivity.
  - pose proof (Byte.to_N_bounded a) as Ha. pose proof (Byte.to_N_bounded b) as Hb.
    pose proof (Byte.to_N_bounded c) as Hc.
    destruct (sextets_bound (Byte.to_N a) (Byte.to_N b) (Byte.to_N c))
      as (B0 & B1 & B2 & B3 & _ & _); try lia.
    cbn [base64.EncodeToString list_ascii_of_string List.filter].
    rewrite !isNewline_enc by assumption. cbn [negb]. rewrite IH. reflexivity.
Qed.

(** encoding/base64 reads back what it wrote. *)
Lemma base64_roundtrip (bs : list byte) :
  base64.DecodeString (base64.EncodeToString bs) = Some bs.
Proof.
  unfold base64.DecodeString. rewrite encode_no_newline. apply quanta_encode.
Qed.

Lemma decodeField_unexported (r : HttpResponse) (k : string) (v : JSON) :
  method (fst (json.decodeField r k v)) = method r /\
  cacheKey (fst (json.decodeField r k v)) = cacheKey r.
Proof.
  unfold json.decodeField.
  destruct (json.equalFold k "FromCache").
  { destruct v; split; reflexivity. }
  destruct (json.equalFold k "StatusCode").
  { destruct v as [| | n | | |]; try (split; reflexivity).
    destruct ((json.minInt64 <=? n)%Z && (n <=? json.maxInt64)%Z); split; reflexivity. }
  destruct (json.equalFold k "Body"); [| split; reflexivity].
  destruct v as [| | | s | l |]; try (split; reflexivity).
  - destruct (base64.DecodeString s); split; reflexivity.
  - destruct (json.decodeBytes l (default [] (Body r))); split; reflexivity.
Qed.

Lemma decodeMembers_unexported (ms : list (string * JSON)) (r : HttpResponse) :
  method (fst (json.decodeMembers ms r)) = method r /\
  cacheKey (fst (json.decodeMembers ms r)) = cacheKey r.
Proof.
  revert r. induction ms as [| [k v] ms IH]; intros r; simpl.
  - split; reflexivity.
  - destruct (decodeField_unexported r k v) as [Hm Hk].
    destruct (json.decodeField r k v) as [r1 e1]. simpl in Hm, Hk.
    destruct (IH r1) as [Hm' Hk'].
    destruct (json.decodeMembers ms r1) as [r2 e2]. simpl in *.
    split; congruence.
Qed.

(** Whatever the cached value, the envelope [toStruct] rebuilds has an
    empty method and an empty cache key: encoding/json neither writes
    nor reads the unexported fields. *)
Lemma toStruct_unexported (m : GoValue) (data : HttpResponse) :
  toStruct m = Some data -> method data = "" /\ cacheKey data = "".
Proof.
  unfold toStruct, json.Unmarshal. destruct (json.MarshalDoc m) as [j | e]; simpl.
  - destruct j as [| | | | | ms]; simpl; intros H; simplify_eq; try (split; reflexivity).
    destruct (decodeMembers_unexported ms zeroHttpResponse) as [Hm Hk].
    destruct (json.decodeMembers ms zeroHttpResponse) as [r e]. simpl in *.
    simplify_eq. split; assumption.
  - discriminate.
Qed.

(** The envelope stored by [executeRequest], read back by [toStruct]:
    the exported fields survive, the method and the cache key do not. *)
Lemma toStruct_response (r : HttpResponse) :
  (json.minInt64 <= StatusCode r <= json.maxInt64)%Z ->
  toStruct (VHttpResponse (Some r))
  = Some (mkHttpResponse "" "" (FromCache r) (StatusCode r) (Body r)).
Proof.
  intros Hrange. unfold toStruct. cbn [json.MarshalDoc].
  unfold json.Unmarshal, json.UnmarshalDoc, json.responseDoc.
  cbn [json.decodeMembers default].
  assert (F1 : json.equalFold "FromCache" "FromCache" = true) by (vm_compute; reflexivity).
  assert (F2 : json.equalFold "StatusCode" "FromCache" = false) by (vm_compute; reflexivity).
  assert (F3 : json.equalFold "StatusCode" "StatusCode" = true) by (vm_compute; reflexivity).
  assert (F4 : json.equalFold "Body" "FromCache" = false) by (vm_compute; reflexivity).
  assert (F5 : json.equalFold "Body" "StatusCode" = false) by (vm_compute; reflexivity).
  assert (F6 : json.equalFold "Body" "Body" = true) by (vm_compute; reflexivity).
  unfold json.decodeField at 1. rewrite F1.
  unfold json.decodeField at 1. rewrite F2, F3.
  cbn [StatusCode FromCache Body method cacheKey zeroHttpResponse].
  assert (Hr : ((json.minInt64 <=? StatusCode r)%Z && (StatusCode r <=? json.maxInt64)%Z) = true).
  { apply andb_true_iff. split; apply Z.leb_le; lia. }
  rewrite Hr.
  unfold json.decodeField. rewrite F4, F5, F6.
  cbn [StatusCode FromCache Body method cacheKey].
  destruct (Body r) as [bs |]; cbn [json.bytesDoc].
  - rewrite base64_roundtrip. reflexivity.
  - reflexivity.
Qed.

(** The envelope of a hit never names the method of the call. *)
Lemma hit_loses_method (h : easyRequest.t) (req : http.Request) t r cached envelope err :
  exec (executeRequest h req) t r ->
  getReplies t = [(cached, None)] ->
  r = Returned (Some envelope, err) ->
  Method envelope = "".
Proof.
  intros H Hhit Hr. unfold executeRequest, profile in H.
  destruct (binding h) as [[f c] |] eqn:Hb;
    exec_inv H; cbn in Hhit; simplify_eq;
    match goal with
    | Hs : toStruct _ = Some _ |- _ => apply toStruct_unexported in Hs as [Hm _]
    end; exact Hm.
Qed.

(** X1. A store followed by a hit that reads back the stored value: the
    first execution returned the stored envelope, whose method is the
    method of the request; the second returns an envelope with the same
    status code, body and cache key, marked as served from the cache,
    and with an empty method. *)
Theorem store_then_hit (h : easyRequest.t) (req : http.Request) f c
    t1 r1 t2 r2 stored k ttl :
  binding h = Some (f, c) ->
  exec (executeRequest h req) t1 r1 ->
  stores t1 = [(f, k, VHttpResponse (Some stored), ttl)] ->
  (json.minInt64 <= StatusCode stored <= json.maxInt64)%Z ->
  exec (executeRequest h req) t2 r2 ->
  getReplies t2 = [(VHttpResponse (Some stored), None)] ->
  r1 = Returned (Some stored, None) /\
  method stored = http.Method req /\
  r2 = Returned (Some (mkHttpResponse "" (cacheKey stored) true
                         (StatusCode stored) (Body stored)), None).
Proof.
  intros Hb H1 Hst Hrange H2 Hhit.
  assert (Hfirst : r1 = Returned (Some stored, None) /\
                   method stored = http.Method req /\
                   cacheKey stored = keyOf req c).
  { unfold keyOf. rewrite spec_cacheKey_eq.
    unfold executeRequest, profile in H1. rewrite Hb in H1.
    exec_inv H1; cbn in Hst; simplify_eq; repeat split; reflexivity. }
  destruct Hfirst as (-> & Hm & Hk).
  split; [reflexivity | split; [exact Hm |]].
  rewrite (hit_returns_cached h req f c t2 r2 _ _ Hb H2 Hhit (toStruct_response stored Hrange)).
  rewrite Hk. reflexivity.
Qed.

(** C5. [GET_Json] twice against a server that answers 200, with the
    [LocalCache] of the example, which hands back the very value it was
    given: the first call stores its envelope, the second is served from
    the cache with the same status code, body and cache key, but its
    method is empty where the stored envelope says GET. *)
Theorem hit_drops_method :
  let out := run (machine LocalCache (Example.answers 200) Example.noDisk)
               Example.twice boot in
  exists stored served,
    fst (resultOf out) = Returned (Some stored, None) /\
    snd (resultOf out) = Returned (Some served, None) /\
    mem (stateOf out) !! Example.key = Some (VHttpResponse (Some stored)) /\
    stores (traceOf out)
      = [(Example.theCache, Example.key, VHttpResponse (Some stored), (5 * Example.minute)%Z)] /\
    getReplies (traceOf out)
      = [(VNil, Some "key not found"); (VHttpResponse (Some stored), None)] /\
    doCount (traceOf out) = 1 /\
    FromCache served = true /\
    StatusCode served = StatusCode stored /\
    Body served = Body stored /\
    CacheKey served = CacheKey stored /\
    Method stored = "GET" /\
    Method served = "" /\
    Method served <> Method stored.
Proof.
  eexists _, _. vm_compute. repeat split; try reflexivity. discriminate.
Qed.

(** ** The theorems at the calls of the example *)

Lemma cache_key_formula_witness :
  binding Example.bound = Some (Example.theCache, Example.json5) /\
  lookups (traceOf Example.miss200) = [(Example.theCache, "GET_json_/json?")] /\
  forall f k v ttl, (f, k, v, ttl) ∈ stores (traceOf Example.miss200) -> k = "GET_json_/json?".
Proof.
  split; [reflexivity |].
  destruct (cache_key_formula Example.bound Example.request Example.theCache
              Example.json5 (traceOf Example.miss200) (resultOf Example.miss200)
              eq_refl (run_exec _ _ _)) as (Hl & Hs & _).
  split; [exact Hl | exact Hs].
Defined.

Lemma store_failure_swallowed_witness :
  setReplies (traceOf Example.broken201) = [(VNil, Some "cache backend unavailable")] /\
  exists f c resp body,
    binding Example.bound = Some (f, c) /\
    doReplies (traceOf Example.broken201) = [Ok resp] /\
    readReplies (traceOf Example.broken201) = [(body, None)] /\
    resultOf Example.broken201
    = Returned (Some (mkHttpResponse "GET" (keyOf Example.request c) false
                        (http.StatusCode resp) (Some body)), None).
Proof.
  split; [reflexivity |].
  apply (store_failure_swallowed Example.bound Example.request
           (traceOf Example.broken201) (resultOf Example.broken201)
           (VNil, Some "cache backend unavailable") (run_exec _ _ _) eq_refl).
Defined.

Lemma read_failure_partial_witness :
  doReplies (traceOf Example.torn200) = [Ok (http.mkResponse 200 0)] /\
  readReplies (traceOf Example.torn200) = [([], Some "unexpected EOF")] /\
  resultOf Example.torn200
  = Returned (Some (mkHttpResponse "GET" "" false 200 None), Some "unexpected EOF").
Proof.
  split; [reflexivity | split; [reflexivity |]].
  apply (read_failure_partial Example.bound Example.request
           (traceOf Example.torn200) (resultOf Example.torn200)
           (http.mkResponse 200 0) [] "unexpected EOF" (run_exec _ _ _) eq_refl eq_refl).
Defined.

Lemma store_on_200_201_witness :
  binding Example.bound = Some (Example.theCache, Example.json5) /\
  getReplies (traceOf Example.miss201) = [(VNil, Some "key not found")] /\
  doReplies (traceOf Example.miss201) = [Ok (http.mkResponse 201 0)] /\
  readReplies (traceOf Example.miss201) = [(Example.okBody, None)] /\
  exists envelope,
    resultOf Example.miss201 = Returned (Some envelope, None) /\
    stores (traceOf Example.miss201)
    = [(Example.theCache, "GET_json_/json?", VHttpResponse (Some envelope),
        (5 * Example.minute)%Z)] /\
    envelope = mkHttpResponse "GET" "GET_json_/json?" false 201 (Some Example.okBody).
Proof.
  split; [reflexivity |]. split; [reflexivity |].
  split; [reflexivity |]. split; [reflexivity |].
  destruct (store_on_200_201 Example.bound Example.request Example.theCache
              Example.json5 (traceOf Example.miss201) (resultOf Example.miss201)
              VNil "key not found" (http.mkResponse 201 0)
              eq_refl (run_exec _ _ _) eq_refl eq_refl) as [H _].
  destruct (H Example.okBody eq_refl) as (_ & Hs & _).
  apply Hs. right. reflexivity.
Defined.

Lemma form_payload_mismatch_witness :
  ReqOptions.headers (applyOpts Example.formOpts freshOptions) !! "Content-Type"
    = Some "application/x-www-form-urlencoded" /\
  isNil (ReqOptions.payload (applyOpts Example.formOpts freshOptions)) = false /\
  asMapStrStr (ReqOptions.payload (applyOpts Example.formOpts freshOptions)) = None /\
  forall t res,
    exec (Custom (lib := Plain.lib) Example.call "POST" Example.formOpts) t res ->
    doCount t = 0 /\ t = [] /\
    res = (Example.call,
           Returned (None,
             Some "payload should be a map[string]string for x-www-form-urlencoded")).
Proof.
  repeat (split; [reflexivity |]).
  apply (form_payload_mismatch (lib := Plain.lib) Example.call "POST" Example.formOpts
           eq_refl eq_refl eq_refl).
Defined.

Lemma multipart_files_without_payload_witness :
  ReqOptions.headers (applyOpts Example.filesOnlyOpts freshOptions) !! "Content-Type"
    = Some "multipart/form-data" /\
  ReqOptions.files (applyOpts Example.filesOnlyOpts freshOptions)
    = Some {["files" := "example/img.png"]} /\
  ReqOptions.payload (applyOpts Example.filesOnlyOpts freshOptions) = VNil /\
  forall t res,
    exec (Custom (lib := Plain.lib) Example.call "POST" Example.filesOnlyOpts) t res ->
    doCount t = 0 /\ t = [] /\
    res = (Example.call,
           Returned (None,
             Some "payload should be a map[string]string for multipart/form-data")).
Proof.
  repeat (split; [reflexivity |]).
  apply (multipart_files_without_payload (lib := Plain.lib) Example.call "POST"
           Example.filesOnlyOpts {["files" := "example/img.png"]}
           eq_refl eq_refl eq_refl).
Defined.

Lemma default_content_type_json_witness :
  resultOf Example.barePost = (Example.call, Ok Example.bareRequest) /\
  ReqOptions.headers (applyOpts Example.bareOpts freshOptions) !! "Content-Type" = None /\
  header.Values (http.Header Example.bareRequest) "Content-Type" = ["application/json"] /\
  http.Body Example.bareRequest = Some Example.bareBody.
Proof.
  assert (Hres : resultOf Example.barePost = (Example.call, Ok Example.bareRequest))
    by (vm_compute; reflexivity).
  pose proof (run_exec (machine LocalCache (Example.answers 201) Example.noDisk)
                (prepareRequest (lib := Plain.lib) Example.call "POST" Example.endpoint
                   Example.bareOpts) boot) as Hx.
  fold Example.barePost in Hx. rewrite Hres in Hx.
  destruct (default_content_type_json (lib := Plain.lib) Example.call "POST"
              Example.endpoint Example.bareOpts _ _ _ Hx) as [Hct Hbody].
  split; [exact Hres | split; [reflexivity | split]].
  - destruct (Hct eq_refl) as [_ Honly]. apply Honly.
    intros k v Hk. vm_compute in Hk. discriminate Hk.
  - destruct (Hbody eq_refl (or_introl eq_refl)) as (byts & Hm & Hb).
    vm_compute in Hm. injection Hm as <-. exact Hb.
Defined.


(** ** More of [executeRequest] *)

Lemma keyOf_nonempty (req : http.Request) (c : cacheObj) : keyOf req c <> "".
Proof.
  unfold keyOf. rewrite spec_cacheKey_eq.
  destruct (http.Method req); discriminate.
Qed.

(** X2. When no lookup of the run succeeds (there is no binding, or the
    lookup fails), the transport is called exactly once, through the
    handle of the client and with the request as it was prepared. If
    the transport fails, its error comes back alone and nothing is read,
    closed or stored. If it answers, the body stream of the response is
    read once and closed once. *)
Theorem dispatch_once (h : easyRequest.t) (req : http.Request) t r :
  exec (executeRequest h req) t r ->
  Forall (fun got => snd got <> None) (getReplies t) ->
  dos t = [(easyRequest.client h, req)] /\
  (forall err, doReplies t = [Err err] ->
     r = Returned (None, Some err) /\
     readStreams t = [] /\ bodyCloses t = [] /\ stores t = []) /\
  (forall resp, doReplies t = [Ok resp] ->
     readStreams t = [http.RespBody resp] /\
     bodyCloses t = [http.RespBody resp]).
Proof.
  intros H Hmiss. unfold executeRequest, profile in H.
  destruct (binding h) as [[f c] |] eqn:Hb;
    exec_inv H; cbn in Hmiss;
    try (apply Forall_cons in Hmiss as [Hmiss _]; cbn in Hmiss; congruence);
    (split; [reflexivity | split]); intros ? Hdo; cbn in Hdo; simplify_eq;
    repeat split; reflexivity.
Qed.

(** X3. Under a binding, the envelope an execution returns is marked as
    served from the cache exactly when the lookup succeeded; its
    [CacheKey] is the computed key when it was served from the cache or
    stored into it, and the empty string otherwise, although a binding
    is attached. *)
Theorem cache_key_reported (h : easyRequest.t) (req : http.Request)
    f c t r envelope err :
  binding h = Some (f, c) ->
  exec (executeRequest h req) t r ->
  r = Returned (Some envelope, err) ->
  (FromCache envelope = true <-> exists v, getReplies t = [(v, None)]) /\
  (CacheKey envelope = keyOf req c <->
     (exists v, getReplies t = [(v, None)]) \/ stores t <> []) /\
  (CacheKey envelope = "" <->
     (forall v, getReplies t <> [(v, None)]) /\ stores t = []).
Proof.
  intros Hb H Hr. pose proof (keyOf_nonempty req c) as Hne. revert Hne.
  unfold keyOf. rewrite spec_cacheKey_eq. intros Hne.
  unfold executeRequest, profile in H. rewrite Hb in H.
  exec_inv H; simplify_eq; cbn; unfold CacheKey; cbn.
  all: repeat split; try reflexivity; try congruence; try discriminate; eauto.
  all: try (intros [v Hv]; discriminate Hv).
  all: try (intros [[v Hv] | Hs]; congruence).
  all: try (intros [Hv Hs]; first [discriminate Hs | exfalso; eapply Hv; reflexivity]).
  all: try (intros Hk; exfalso; congruence).
Qed.

(** X4. Every execution reads the clock first and ends with its timing:
    it asks for the time elapsed since that first reading and, when the
    logger of the client is a leveled logger or a printf logger, hands
    it one line with the path and the method of the request and that
    duration, as its very last effect; with any other logger no line is
    written. This holds on every way out, the panic included. *)
Theorem timing_logged (h : easyRequest.t) (req : http.Request) t r :
  exec (executeRequest h req) t r ->
  exists start ms,
    head t = Some (E TimeNow start) /\
    nows t = [start] /\
    sinces t = [(start, ms)] /\
    match easyRequest.logger h with
    | LeveledLogger v =>
        logs t = [DebugLine v (url.Path (http.URL req)) (http.Method req) ms] /\
        last t = Some (E (LogDebug v (url.Path (http.URL req)) (http.Method req) ms) tt)
    | PrintfLogger v =>
        logs t = [PrintfLine v (url.Path (http.URL req)) (http.Method req) ms] /\
        last t = Some (E (LogPrintf v (url.Path (http.URL req)) (http.Method req) ms) tt)
    | _ => logs t = [] /\ last t = Some (E (TimeSince start) ms)
    end.
Proof.
  intros H. unfold executeRequest, profile in H.
  destruct (binding h) as [[f c] |] eqn:Hb;
    exec_inv H; eexists _, _; repeat split; reflexivity.
Qed.

(** X5. [toStruct] hands back the nil pointer exactly when the value
    marshals to JSON null or does not marshal at all; in every other
    case it hands back an envelope, whose method and cache key are
    empty whatever the value was, and which is the zero envelope when
    the value does not marshal to an object. *)
Theorem toStruct_nil_iff (m : GoValue) :
  (toStruct m = None <->
     json.MarshalDoc m = Ok JNull \/ exists e, json.MarshalDoc m = Err e) /\
  (forall data, toStruct m = Some data -> method data = "" /\ cacheKey data = "") /\
  (forall j, json.MarshalDoc m = Ok j -> j <> JNull ->
     (forall ms, j <> JObj ms) -> toStruct m = Some zeroHttpResponse).
Proof.
  split; [| split].
  - unfold toStruct, json.Unmarshal.
    destruct (json.MarshalDoc m) as [j | e]; cbn.
    + destruct j as [| | | | | ms]; cbn;
        try destruct (json.decodeMembers ms zeroHttpResponse);
        split; intros H;
        try discriminate; try (left; reflexivity);
        try reflexivity;
        try (destruct H as [H | [e H]]; discriminate).
    + split; intros _; [right; eexists; reflexivity | reflexivity].
  - apply toStruct_unexported.
  - intros j Hj Hnull Hobj. unfold toStruct, json.Unmarshal. rewrite Hj.
    destruct j as [| | | | | ms]; cbn; try reflexivity.
    + contradiction.
    + exfalso. apply (Hobj ms). reflexivity.
Qed.

(** ** The extras at the calls of the example *)

Lemma store_then_hit_witness :
  binding Example.bound = Some (Example.theCache, Example.json5) /\
  stores (traceOf Example.miss200)
    = [(Example.theCache, Example.key, VHttpResponse (Some Example.stored200),
        (5 * Example.minute)%Z)] /\
  getReplies (traceOf Example.hit200) = [(VHttpResponse (Some Example.stored200), None)] /\
  resultOf Example.miss200 = Returned (Some Example.stored200, None) /\
  resultOf Example.hit200
    = Returned (Some (mkHttpResponse "" Example.key true 200 (Some Example.okBody)), None).
Proof.
  split; [reflexivity | split; [reflexivity | split; [reflexivity |]]].
  assert (Hrange : (json.minInt64 <= StatusCode Example.stored200 <= json.maxInt64)%Z)
    by (unfold json.minInt64, json.maxInt64; cbn; lia).
  destruct (store_then_hit Example.bound Example.request Example.theCache Example.json5
              (traceOf Example.miss200) (resultOf Example.miss200)
              (traceOf Example.hit200) (resultOf Example.hit200)
              Example.stored200 Example.key (5 * Example.minute)%Z
              eq_refl (run_exec _ _ _) eq_refl
              Hrange
              (run_exec _ _ _) eq_refl) as (H1 & _ & H2).
  split; [exact H1 | exact H2].
Defined.

Lemma dispatch_once_witness :
  Forall (fun got => snd got <> None) (getReplies (traceOf Example.down)) /\
  dos (traceOf Example.down) = [(0, Example.request)] /\
  resultOf Example.down = Returned (None, Some "dial tcp: connection refused") /\
  bodyCloses (traceOf Example.down) = [].
Proof.
  assert (Hmiss : Forall (fun got => snd got <> None) (getReplies (traceOf Example.down))).
  { cbn. constructor; [discriminate | constructor]. }
  split; [exact Hmiss |].
  destruct (dispatch_once Example.bound Example.request
              (traceOf Example.down) (resultOf Example.down)
              (run_exec _ _ _) Hmiss) as (Hd & Herr & _).
  split; [exact Hd |].
  destruct (Herr "dial tcp: connection refused" eq_refl) as (Hr & _ & Hc & _).
  split; [exact Hr | exact Hc].
Defined.

Lemma cache_key_reported_witness :
  binding Example.bound = Some (Example.theCache, Example.json5) /\
  resultOf Example.miss404
    = Returned (Some (mkHttpResponse "GET" "" false 404 (Some Example.okBody)), None) /\
  stores (traceOf Example.miss404) = [] /\
  CacheKey (mkHttpResponse "GET" "" false 404 (Some Example.okBody)) = "".
Proof.
  split; [reflexivity | split; [reflexivity | split; [reflexivity |]]].
  destruct (cache_key_reported Example.bound Example.request Example.theCache Example.json5
              (traceOf Example.miss404) (resultOf Example.miss404)
              (mkHttpResponse "GET" "" false 404 (Some Example.okBody)) None
              eq_refl (run_exec _ _ _) eq_refl) as (_ & _ & Hk).
  apply Hk. split; [intros v Hv; discriminate Hv | reflexivity].
Defined.

Lemma timing_logged_witness :
  exists start ms,
    head (traceOf Example.logged404) = Some (E TimeNow start) /\
    nows (traceOf Example.logged404) = [start] /\
    sinces (traceOf Example.logged404) = [(start, ms)] /\
    logs (traceOf Example.logged404) = [DebugLine 7 "/json" "GET" ms] /\
    last (traceOf Example.logged404) = Some (E (LogDebug 7 "/json" "GET" ms) tt).
Proof.
  destruct (timing_logged Example.logged Example.request
              (traceOf Example.logged404) (resultOf Example.logged404)
              (run_exec _ _ _)) as (start & ms & H).
  exists start, ms. exact H.
Defined.

(** ** More of [prepareRequest] *)

(** The request [prepareRequest] builds from what [http.NewRequest]
    returned, the headers the encoder left and the options. *)
Lemma prepareRequest_inv {lib : GoLib} (h : easyRequest.t) (method_ endpoint : string)
    (opts : list TReqOption) t h' res :
  let options := applyOpts opts freshOptions in
  exec (prepareRequest h method_ endpoint opts) t (h', res) ->
  exists encoded,
    exec (encodePayload options) t encoded /\
    match encoded with
    | Err err => res = Err err /\ h' = h
    | Ok (body, hs) =>
        match NewRequest method_ endpoint body with
        | Err err => res = Err err /\ h' = h
        | Ok req0 =>
            res = Ok (http.mkRequest (http.Method req0)
                        (url.mkURL (url.Scheme (http.URL req0)) (url.Host (http.URL req0))
                           (url.Path (http.URL req0))
                           (url_Values_Encode
                              (fold_left (fun q kv => url.Add q (fst kv) (snd kv))
                                 (range (ReqOptions.queries options))
                                 (url_ParseQuery (url.RawQuery (http.URL req0))))))
                        (match hs !! "Content-Type" with
                         | Some _ =>
                             fold_left (fun hd kv => header.Add hd (fst kv) (snd kv))
                               (range hs) (http.Header req0)
                         | None =>
                             header.Add
                               (fold_left (fun hd kv => header.Add hd (fst kv) (snd kv))
                                  (range hs) (http.Header req0))
                               "Content-Type" "application/json"
                         end)
                        (http.Body req0)) /\
            h' = match ReqOptions.cacheObj options with
                 | Some c =>
                     match fncs c with
                     | Some _ => easyRequest.set_cacheObj h (Some c)
                     | None => h
                     end
                 | None => h
                 end
        end
    end.
Proof.
  intros options H. unfold prepareRequest in H. fold options in H.
  apply exec_bind in H as (t1 & encoded & t2 & Henc & H & ->).
  exists encoded.
  destruct encoded as [[body hs] | err].
  - destruct (NewRequest method_ endpoint body) as [req0 | err].
    + cbn in H. destruct H as [-> H]. rewrite app_nil_r. split; [exact Henc |].
      injection H as -> ->. split; reflexivity.
    + exec_inv H. rewrite app_nil_r. split; [exact Henc | split; reflexivity].
  - exec_inv H. rewrite app_nil_r. split; [exact Henc | split; reflexivity].
Qed.

Lemma NewRequest_inv {lib : GoLib} (method_ endpoint : string) body req0 :
  NewRequest method_ endpoint body = Ok req0 ->
  http.Method req0 = (if decide (method_ = "") then "GET" else method_) /\
  validMethod (http.Method req0) = true /\
  (exists u,
     url_Parse endpoint = Ok u /\
     http.URL req0 = url.mkURL (url.Scheme u) (http.removeEmptyPort (url.Host u))
                       (url.Path u) (url.RawQuery u)) /\
  http.Header req0 = ∅ /\
  http.Body req0 = body.
Proof.
  unfold NewRequest. intros H.
  destruct (validMethod (if decide (method_ = "") then "GET" else method_)) eqn:Hv;
    [| discriminate].
  cbn in H. destruct (url_Parse endpoint) as [u | e]; [| discriminate].
  injection H as <-. cbn. repeat split; try reflexivity; [exact Hv |].
  exists u. split; reflexivity.
Qed.

(** X6. With no payload and no files the encoder is not consulted,
    whatever content type the headers declare: [prepareRequest]
    performs no effect, the request it builds has no body, and it fails
    only when [http.NewRequest] refuses the method or the endpoint, with
    that error and the client untouched. *)
Theorem no_payload_no_body {lib : GoLib} (h : easyRequest.t) (method_ endpoint : string)
    (opts : list TReqOption) t h' res :
  let options := applyOpts opts freshOptions in
  ReqOptions.payload options = VNil ->
  ReqOptions.files options = None ->
  exec (prepareRequest h method_ endpoint opts) t (h', res) ->
  t = [] /\
  (forall req, res = Ok req -> http.Body req = None) /\
  (forall e, res = Err e -> NewRequest method_ endpoint None = Err e /\ h' = h).
Proof.
  intros options Hp Hf H.
  apply prepareRequest_inv in H as (encoded & Henc & H). fold options in Henc, H.
  unfold encodePayload in Henc. rewrite Hp, Hf in Henc. cbn in Henc.
  destruct Henc as [-> ->]. split; [reflexivity |].
  destruct (NewRequest method_ endpoint None) as [req0 | err] eqn:Hnew.
  - destruct H as [-> _]. split; [| intros; discriminate].
    intros req Hreq. injection Hreq as <-. cbn.
    apply NewRequest_inv in Hnew as (_ & _ & _ & _ & Hb). exact Hb.
  - destruct H as [-> ->]. split; [intros; discriminate |].
    intros e He. injection He as <-. split; reflexivity.
Qed.

(** The method of the envelope an execution returns. *)
Lemma executeRequest_method (h : easyRequest.t) (req : http.Request) t r envelope err :
  exec (executeRequest h req) t r ->
  r = Returned (Some envelope, err) ->
  Method envelope = if FromCache envelope then "" else http.Method req.
Proof.
  intros H Hr. unfold executeRequest, profile in H.
  destruct (binding h) as [[f c] |] eqn:Hb;
    exec_inv H; simplify_eq; cbn; try reflexivity;
    match goal with
    | Hs : toStruct _ = Some _ |- _ => apply toStruct_unexported in Hs as [Hm _]
    end; exact Hm.
Qed.

(** X7. The [Method] of the envelope a call returns: empty when the
    envelope was served from the cache, and otherwise the method of the
    call, an empty method standing for GET. *)
Theorem envelope_method {lib : GoLib} (h : easyRequest.t) (method_ : string)
    (opts : list TReqOption) t h' envelope err :
  exec (Custom h method_ opts) t (h', Returned (Some envelope, err)) ->
  Method envelope
  = if FromCache envelope then ""
    else if decide (method_ = "") then "GET" else method_.
Proof.
  intros H. unfold Custom in H.
  apply exec_bind in H as (t1 & [h1 res] & t2 & Hprep & H & ->).
  apply prepareRequest_inv in Hprep as (encoded & _ & Hprep).
  destruct res as [req | e]; cbn [fst snd] in H; [| exec_inv H].
  apply exec_bind in H as (t3 & out & t4 & Hexec & H & ->).
  exec_inv H.
  rewrite (executeRequest_method _ _ _ _ _ _ Hexec eq_refl).
  destruct (FromCache envelope); [reflexivity |].
  destruct encoded as [[body hs] | e]; [| destruct Hprep; discriminate].
  destruct (NewRequest method_ (easyRequest.endpoint h) body) as [req0 | e] eqn:Hnew;
    [| destruct Hprep; discriminate].
  destruct Hprep as [Hreq _]. injection Hreq as ->. cbn.
  apply NewRequest_inv in Hnew as (Hm & _). exact Hm.
Qed.

(** X8. When the method is not a token or the endpoint does not parse,
    a call returns an error and no envelope, reaches neither the cache
    nor the transport, and leaves the client as it was, even when its
    options carry a cache binding. *)
Theorem request_construction_failure {lib : GoLib} (h : easyRequest.t) (method_ : string)
    (opts : list TReqOption) t h' r :
  validMethod (if decide (method_ = "") then "GET" else method_) = false \/
  (exists e, url_Parse (easyRequest.endpoint h) = Err e) ->
  exec (Custom h method_ opts) t (h', r) ->
  (exists e, r = Returned (None, Some e)) /\
  h' = h /\ doCount t = 0 /\ cacheKeys t = [].
Proof.
  intros Hbad H.
  assert (Hnew : forall body, exists e,
               NewRequest method_ (easyRequest.endpoint h) body = Err e).
  { intros body. unfold NewRequest. destruct Hbad as [Hv | [e He]].
    - rewrite Hv. cbn. eexists. reflexivity.
    - destruct (validMethod _); cbn; [rewrite He |]; eexists; reflexivity. }
  unfold Custom in H.
  apply exec_bind in H as (t1 & [h1 res] & t2 & Hprep & H & ->).
  pose proof Hprep as Hq. apply prepareRequest_quiet in Hq as [[Hk Hd] _].
  apply prepareRequest_inv in Hprep as (encoded & _ & Hprep).
  assert (Hres : (exists e, res = Err e) /\ h1 = h).
  { destruct encoded as [[body hs] | e].
    - destruct (Hnew body) as [e He]. rewrite He in Hprep.
      destruct Hprep as [-> ->]. split; [eexists |]; reflexivity.
    - destruct Hprep as [-> ->]. split; [eexists |]; reflexivity. }
  destruct Hres as [[e ->] ->]. cbn [fst snd] in H. exec_inv H.
  rewrite app_nil_r. repeat split; [eexists; reflexivity | exact Hd | exact Hk].
Qed.

(** X9. [prepareRequest] changes the client only when it succeeds and
    its options carry a binding whose capability is non-nil: that
    binding then replaces whatever the client had. A failed
    preparation, options without [WithCache], and [WithCache] given a
    nil capability all leave the client, and an earlier binding, as
    they were. *)
Theorem binding_attached {lib : GoLib} (h : easyRequest.t) (method_ endpoint : string)
    (opts : list TReqOption) t h' res :
  let options := applyOpts opts freshOptions in
  exec (prepareRequest h method_ endpoint opts) t (h', res) ->
  (forall e, res = Err e -> h' = h) /\
  (ReqOptions.cacheObj options = None -> h' = h) /\
  (forall c, ReqOptions.cacheObj options = Some c -> fncs c = None -> h' = h) /\
  (forall c f req,
      ReqOptions.cacheObj options = Some c -> fncs c = Some f -> res = Ok req ->
      binding h' = Some (f, c) /\ h' = easyRequest.set_cacheObj h (Some c)).
Proof.
  intros options H.
  apply prepareRequest_inv in H as (encoded & _ & H). fold options in H.
  destruct encoded as [[body hs] | e0].
  - destruct (NewRequest method_ endpoint body) as [req0 | e0].
    + destruct H as [-> ->]. split; [| split; [| split]].
      * intros; discriminate.
      * intros ->. reflexivity.
      * intros c -> ->. reflexivity.
      * intros c f req -> Hf _. rewrite Hf. unfold binding. cbn. rewrite Hf. split; reflexivity.
    + destruct H as [-> ->]. repeat split; try reflexivity; intros; discriminate.
  - destruct H as [-> ->]. repeat split; try reflexivity; intros; discriminate.
Qed.

(** What a [range] over a map yields: every entry, each key once. *)
Lemma range_entries {lib : GoLib} (m : gmap string string) :
  NoDup (range m).*1 /\ (list_to_map (range m) : gmap string string) = m.
Proof.
  pose proof (range_perm m) as Hp. split.
  - rewrite Hp. apply NoDup_fst_map_to_list.
  - rewrite <- (list_to_map_to_list m) at 2.
    apply list_to_map_proper; [| exact Hp].
    rewrite Hp. apply NoDup_fst_map_to_list.
Qed.

Lemma elem_of_range {lib : GoLib} (m : gmap string string) (k v : string) :
  In (k, v) (range m) <-> m !! k = Some v.
Proof.
  rewrite <- list_elem_of_In, (range_perm m). apply elem_of_map_to_list.
Qed.



Lemma fold_Set_lookup (l : list (string * string)) (d : url.Values) (K : string) :
  NoDup l.*1 ->
  fold_left (fun d kv => url.Set_ d (fst kv) (snd kv)) l d !! K
  = match (list_to_map l : gmap string string) !! K with
    | Some v => Some [v]
    | None => d !! K
    end.
Proof.
  revert d. induction l as [| [k v] l IH]; intros d Hnd; [reflexivity |].
  apply NoDup_cons in Hnd as [Hk Hnd]. cbn. rewrite (IH _ Hnd).
  unfold url.Set_. destruct (decide (k = K)) as [-> | Hne].
  - rewrite !lookup_insert_eq, (not_elem_of_list_to_map_1 _ _ Hk). reflexivity.
  - rewrite !lookup_insert_ne by exact Hne. reflexivity.
Qed.

(** X10. Outside the multipart case, the request [prepareRequest]
    builds carries every header of the options under its canonical key,
    and carries nothing else: each value found under a key was given by
    the options under a spelling of that key, or is the default
    application/json added when the options have no Content-Type. *)
Theorem headers_carried {lib : GoLib} (h : easyRequest.t) (method_ endpoint : string)
    (opts : list TReqOption) t h' req :
  let options := applyOpts opts freshOptions in
  exec (prepareRequest h method_ endpoint opts) t (h', Ok req) ->
  ReqOptions.headers options !! "Content-Type" <> Some "multipart/form-data" ->
  (forall k v, ReqOptions.headers options !! k = Some v ->
               v ∈ header.Values (http.Header req) k) /\
  (forall K v, v ∈ default [] (http.Header req !! K) ->
     (exists k, ReqOptions.headers options !! k = Some v /\
                textproto.CanonicalMIMEHeaderKey k = K) \/
     (K = "Content-Type" /\ v = "application/json" /\
      ReqOptions.headers options !! "Content-Type" = None)).
Proof.
  intros options H Hct.
  apply prepareRequest_inv in H as (encoded & Henc & H). fold options in Henc, H.
  destruct encoded as [[body hs] | e]; [| destruct H; discriminate].
  apply encodePayload_headers in Henc; [| exact Hct]. subst hs.
  destruct (NewRequest method_ endpoint body) as [req0 | e] eqn:Hnew;
    [| destruct H; discriminate].
  apply NewRequest_inv in Hnew as (_ & _ & _ & Hh0 & _).
  destruct H as [Hreq _]. injection Hreq as ->. cbn [http.Header].
  rewrite Hh0.
  assert (Hval : forall K,
             default [] (match ReqOptions.headers options !! "Content-Type" with
                         | Some _ =>
                             fold_left (fun hd kv => header.Add hd (fst kv) (snd kv))
                               (range (ReqOptions.headers options)) ∅
                         | None =>
                             header.Add
                               (fold_left (fun hd kv => header.Add hd (fst kv) (snd kv))
                                  (range (ReqOptions.headers options)) ∅)
                               "Content-Type" "application/json"
                         end !! K)
             = (List.map snd
                  (List.filter
                     (fun kv => bool_decide (textproto.CanonicalMIMEHeaderKey (fst kv) = K))
                     (range (ReqOptions.headers options)))
                ++ match ReqOptions.headers options !! "Content-Type" with
                   | Some _ => []
                   | None => if decide ("Content-Type" = K) then ["application/json"] else []
                   end)%list).
  { intros K. destruct (ReqOptions.headers options !! "Content-Type").
    - rewrite values_fold_Add, lookup_empty, app_nil_r. reflexivity.
    - unfold header.Add at 1.
      rewrite canonical_content_type, values_Add, values_fold_Add, lookup_empty.
      reflexivity. }
  split.
  - intros k v Hk. unfold header.Values. rewrite Hval.
    apply elem_of_app. left. apply list_elem_of_In, in_map_iff.
    exists (k, v). split; [reflexivity |].
    apply filter_In. split; [apply elem_of_range; exact Hk |].
    apply bool_decide_eq_true_2. reflexivity.
  - intros K v Hin. rewrite Hval in Hin. apply elem_of_app in Hin as [Hin | Hin].
    + left. apply list_elem_of_In, in_map_iff in Hin as ([k v'] & Hv & Hin).
      cbn in Hv. subst v'. apply filter_In in Hin as [Hin Hc].
      apply bool_decide_eq_true_1 in Hc. exists k.
      split; [apply elem_of_range; exact Hin | exact Hc].
    + right. destruct (ReqOptions.headers options !! "Content-Type");
        [apply elem_of_nil in Hin; contradiction |].
      destruct (decide ("Content-Type" = K)) as [<- |];
        [| apply elem_of_nil in Hin; contradiction].
      apply list_elem_of_singleton in Hin. repeat split; [exact Hin].
Qed.


(** X12. With Content-Type application/x-www-form-urlencoded and a
    [map[string]string] payload, [prepareRequest] performs no effect and
    the body is the encoding of the values that map each key of the
    payload to its single value: the order in which the payload is
    visited leaves no trace. *)
Theorem form_body {lib : GoLib} (h : easyRequest.t) (method_ endpoint : string)
    (opts : list TReqOption) (formData : gmap string string) t h' req :
  let options := applyOpts opts freshOptions in
  ReqOptions.headers options !! "Content-Type"
    = Some "application/x-www-form-urlencoded" ->
  ReqOptions.payload options = VMapStrStr formData ->
  exec (prepareRequest h method_ endpoint opts) t (h', Ok req) ->
  t = [] /\
  http.Body req
  = Some (list_byte_of_string (url_Values_Encode ((fun v => [v]) <$> formData))).
Proof.
  intros options Hct Hp H.
  apply prepareRequest_inv in H as (encoded & Henc & H). fold options in Henc, H.
  unfold encodePayload in Henc. rewrite Hct, Hp in Henc. cbn in Henc.
  destruct Henc as [-> ->]. split; [reflexivity |].
  destruct (NewRequest method_ endpoint _) as [req0 | e] eqn:Hnew;
    [| destruct H; discriminate].
  apply NewRequest_inv in Hnew as (_ & _ & _ & _ & Hb).
  destruct H as [Hreq _]. injection Hreq as ->. cbn. rewrite Hb.
  do 3 f_equal. apply map_eq. intros K.
  destruct (range_entries formData) as [Hnd Hmap].
  rewrite (fold_Set_lookup _ _ K Hnd), Hmap, lookup_fmap, lookup_empty.
  destruct (formData !! K); reflexivity.
Qed.

(** ** [handleMultipartFormData] *)

Lemma last_cons_Some {A : Type} (a x : A) (l : list A) :
  last l = Some x -> last (a :: l) = Some x.
Proof. destruct l; [discriminate | intros H; exact H]. Qed.

Lemma closeAll_trace (files : list File) t r :
  exec (closeAll files) t r ->
  t = List.map (fun f => E (FileClose f) tt) files.
Proof.
  revert t. induction files as [| f rest IH]; intros t H.
  - exec_inv H. reflexivity.
  - cbn in H. destruct H as ([] & t' & -> & H). cbn. f_equal. apply IH. exact H.
Qed.

(** The loop over the files: what it leaves open, what it wrote, and
    how it can fail. *)
Lemma writeFiles_trace {lib : GoLib} (files : list (string * string)) parts held t res held' :
  exec (writeFiles files parts held) t (res, held') ->
  held' = (rev (opened_ t) ++ held)%list /\
  fileCloses t = [] /\ boundaries t = [] /\
  List.map fst (opens t) `prefix_of` List.map snd files /\
  List.map fst (copies t) = opened_ t /\
  match res with
  | Ok parts' =>
      parts' = (parts ++ zip_with filePart files (copied t))%list /\
      length (copied t) = length files /\
      List.map fst (opens t) = List.map snd files
  | Err msg =>
      (exists path err,
          last (opens t) = Some (path, Err err) /\
          msg = "failed to open file " ++ path ++ ": " ++ err) \/
      (exists f, last (copies t) = Some (f, Err msg) /\ last (opened_ t) = Some f)
  end.
Proof.
  revert parts held t.
  induction files as [| [filename filePath] rest IH]; intros parts held t H.
  - exec_inv H. cbn. rewrite app_nil_r. repeat split; try reflexivity.
  - cbn in H. destruct H as (file & t1 & -> & H).
    destruct file as [file | err].
    + cbn in H. destruct H as (content & t2 & -> & H).
      destruct content as [content | err].
      * apply IH in H as (-> & Hc & Hb & Hpre & Hcp & Hres).
        cbn. rewrite <- app_assoc. cbn.
        split; [reflexivity | split; [exact Hc | split; [exact Hb |]]].
        split; [apply prefix_cons; exact Hpre |].
        split; [f_equal; exact Hcp |].
        destruct res as [parts' | msg].
        -- destruct Hres as (-> & Hlen & Hop).
           rewrite <- app_assoc.
           split; [reflexivity | split].
           ++ cbn. f_equal. exact Hlen.
           ++ cbn. f_equal. exact Hop.
        -- destruct Hres as [(path & err & Hl & ->) | (f & Hl & Hlo)].
           ++ left. exists path, err. split; [| reflexivity].
              apply last_cons_Some. exact Hl.
           ++ right. exists f. split; apply last_cons_Some; assumption.
      * exec_inv H. cbn.
        repeat split; try reflexivity.
        -- apply prefix_cons, prefix_nil.
        -- right. exists file. split; reflexivity.
    + exec_inv H. cbn. repeat split; try reflexivity.
      * apply prefix_cons, prefix_nil.
      * left. exists filePath, err. split; reflexivity.
Qed.

Lemma omap_closes {A : Type} (f : Entry -> option A) (files : list File) :
  (forall x, f (E (FileClose x) tt) = None) ->
  omap f (List.map (fun x => E (FileClose x) tt) files) = [].
Proof.
  intros Hf. induction files as [| x files IH]; [reflexivity |].
  cbn. rewrite Hf. exact IH.
Qed.

(** X13. Every file [handleMultipartFormData] has opened is closed
    exactly once, the last opened first, and only once the loop over
    the files is over: nothing is closed while fields and files are
    being written, and nothing else happens once the closing starts,
    whether the function succeeds or fails. *)
Theorem files_closed {lib : GoLib} (payload : gmap string string)
    (files : option (gmap string string)) t r :
  exec (handleMultipartFormData payload files) t r ->
  fileCloses t = rev (opened_ t) /\
  exists t1,
    t = (t1 ++ List.map (fun f => E (FileClose f) tt) (rev (opened_ t1)))%list /\
    fileCloses t1 = [].
Proof.
  unfold handleMultipartFormData. intros H. cbn in H.
  destruct H as (boundary & t0 & -> & H).
  apply exec_bind in H as (tw & [res held] & t2 & Hw & H & ->).
  apply exec_bind in H as (tc & u & t3 & Hc & H & ->).
  apply writeFiles_trace in Hw as (-> & Hcl & _).
  apply closeAll_trace in Hc. subst tc. rewrite app_nil_r in *. cbn [fst snd] in *.
  assert (t3 = []) as ->. { cbn in H. destruct res; exec_inv H; reflexivity. }
  rewrite app_nil_r.
  assert (Hclose : forall l : list File,
             fileCloses (List.map (fun f => E (FileClose f) tt) l) = l).
  { induction l as [| x l IHl]; [reflexivity | cbn; f_equal; exact IHl]. }
  assert (Hopen : forall l : list File,
             opened_ (List.map (fun f => E (FileClose f) tt) l) = []).
  { induction l as [| x l IHl]; [reflexivity | exact IHl]. }
  split.
  - set (cl := List.map (fun f => E (FileClose f) tt) (rev (opened_ tw))).
    assert (Hfc : fileCloses (E RandomBoundary boundary :: tw ++ cl)
                  = (fileCloses tw ++ fileCloses cl)%list)
      by (unfold fileCloses; cbn; apply omap_app).
    assert (Hop : opened_ (E RandomBoundary boundary :: tw ++ cl)
                  = (opened_ tw ++ opened_ cl)%list)
      by (unfold opened_; cbn; apply omap_app).
    rewrite Hfc, Hop, Hcl. unfold cl. rewrite Hclose, Hopen, app_nil_r. reflexivity.
  - exists (E RandomBoundary boundary :: tw). split; [reflexivity | exact Hcl].
Qed.

(** The shape of every run of [handleMultipartFormData]. *)
Lemma handleMultipartFormData_inv {lib : GoLib} (payload : gmap string string)
    (files : option (gmap string string)) t r :
  exec (handleMultipartFormData payload files) t r ->
  exists boundary tw res,
    t = (E RandomBoundary boundary :: tw
         ++ List.map (fun f => E (FileClose f) tt) (rev (opened_ tw)))%list /\
    exec (writeFiles (range (default ∅ files))
            (List.map (fun kv => multipart.FormField (fst kv) (snd kv)) (range payload)) [])
      tw (res, rev (opened_ tw)) /\
    r = match res with
        | Ok parts =>
            Ok (multipart_render boundary parts, multipart.FormDataContentType boundary)
        | Err err => Err err
        end.
Proof.
  unfold handleMultipartFormData. intros H. cbn in H.
  destruct H as (boundary & t0 & -> & H).
  apply exec_bind in H as (tw & [res held] & t2 & Hw & H & ->).
  apply exec_bind in H as (tc & u & t3 & Hc & H & ->).
  pose proof Hw as Hheld. apply writeFiles_trace in Hheld as (-> & _).
  apply closeAll_trace in Hc. subst tc. rewrite app_nil_r in *. cbn [fst snd] in *.
  exists boundary, tw, res.
  destruct res; exec_inv H; rewrite app_nil_r; repeat split; try reflexivity; exact Hw.
Qed.

(** X14. [handleMultipartFormData] draws one boundary and opens the
    files in the order it visits them, stopping at the first that does
    not open or cannot be read. When it succeeds, every file was opened
    and read, the content type is multipart/form-data with that
    boundary, and the body holds one field per entry of the payload
    followed by one file part per file, named by its key, with the base
    name of its path and the bytes read. When it fails, the error is
    that of the last file tried: "failed to open file", its path and the
    reason, or the read error as it came. *)
Theorem multipart_result {lib : GoLib} (payload : gmap string string)
    (files : option (gmap string string)) t r :
  exec (handleMultipartFormData payload files) t r ->
  exists boundary,
    boundaries t = [boundary] /\
    List.map fst (opens t) `prefix_of` List.map snd (range (default ∅ files)) /\
    match r with
    | Ok (body, contentType) =>
        contentType = multipart.FormDataContentType boundary /\
        List.map fst (opens t) = List.map snd (range (default ∅ files)) /\
        length (copied t) = length (range (default ∅ files)) /\
        body = multipart_render boundary
                 (List.map (fun kv => multipart.FormField (fst kv) (snd kv)) (range payload)
                  ++ zip_with filePart (range (default ∅ files)) (copied t))%list
    | Err msg =>
        (exists path err,
            last (opens t) = Some (path, Err err) /\
            msg = "failed to open file " ++ path ++ ": " ++ err) \/
        (exists f, last (copies t) = Some (f, Err msg))
    end.
Proof.
  intros H. apply handleMultipartFormData_inv in H as (boundary & tw & res & -> & Hw & ->).
  apply writeFiles_trace in Hw as (_ & _ & Hb & Hpre & _ & Hres).
  set (cl := List.map (fun f => E (FileClose f) tt) (rev (opened_ tw))).
  assert (Hobs : boundaries (E RandomBoundary boundary :: tw ++ cl) = [boundary] /\
                 opens (E RandomBoundary boundary :: tw ++ cl) = opens tw /\
                 copies (E RandomBoundary boundary :: tw ++ cl) = copies tw /\
                 copied (E RandomBoundary boundary :: tw ++ cl) = copied tw).
  { unfold boundaries, opens, copies, copied, cl in *. cbn.
    rewrite !omap_app, !omap_closes, !app_nil_r by reflexivity.
    rewrite Hb. repeat split; reflexivity. }
  destruct Hobs as (Hb' & Ho & Hc & Hcd).
  exists boundary. rewrite Hb', Ho, Hc, Hcd.
  split; [reflexivity | split; [exact Hpre |]].
  destruct res as [parts | msg].
  - destruct Hres as (-> & Hlen & Hop). repeat split; assumption || reflexivity.
  - destruct Hres as [Hopen | (f & Hl & _)]; [left; exact Hopen | right; eauto].
Qed.

(** What the encoder does in the multipart case. *)
Lemma encodePayload_multipart {lib : GoLib} (o : ReqOptions.t) fields t body hs :
  ReqOptions.headers o !! "Content-Type" = Some "multipart/form-data" ->
  ReqOptions.payload o = VMapStrStr fields ->
  exec (encodePayload o) t (Ok (body, hs)) ->
  exists boundary content,
    exec (handleMultipartFormData fields (ReqOptions.files o)) t
      (Ok (content, multipart.FormDataContentType boundary)) /\
    boundaries t = [boundary] /\
    body = Some content /\
    hs = <["Content-Type" := multipart.FormDataContentType boundary]> (ReqOptions.headers o).
Proof.
  intros Hct Hp H. unfold encodePayload in H. rewrite Hct, Hp in H.
  cbn [isNil negb orb asMapStrStr] in H.
  change (default "" (Some "multipart/form-data")) with "multipart/form-data" in H.
  destruct (decide ("multipart/form-data" = "application/x-www-form-urlencoded"))
    as [Hd | _]; [discriminate Hd |].
  destruct (decide ("multipart/form-data" = "multipart/form-data"))
    as [_ | Hd]; [| exfalso; apply Hd; reflexivity].
  apply exec_bind in H as (t1 & res & t2 & Hm & H & ->).
  destruct res as [[b ct] | err]; exec_inv H. rewrite app_nil_r.
  pose proof Hm as Hinv.
  apply handleMultipartFormData_inv in Hinv as (boundary & tw & res & -> & Hw & Hr).
  destruct res as [parts | err]; [| discriminate]. injection Hr as -> ->.
  exists boundary, (multipart_render boundary parts).
  split; [exact Hm |]. split; [| split; reflexivity].
  apply writeFiles_trace in Hw as (_ & _ & Hb & _).
  unfold boundaries in *. cbn. rewrite omap_app, omap_closes, app_nil_r by reflexivity.
  rewrite Hb. reflexivity.
Qed.

(** X15. In a multipart request that [prepareRequest] has built from a
    [map[string]string] payload, the Content-Type given by the options
    is replaced: the request carries multipart/form-data with the
    boundary that was drawn, every other value of that header comes
    from an option spelled as another casing of Content-Type, and no
    default is added. The body is the multipart body with that
    boundary. *)
Theorem multipart_content_type {lib : GoLib} (h : easyRequest.t) (method_ endpoint : string)
    (opts : list TReqOption) (fields : gmap string string) t h' req :
  let options := applyOpts opts freshOptions in
  ReqOptions.headers options !! "Content-Type" = Some "multipart/form-data" ->
  ReqOptions.payload options = VMapStrStr fields ->
  exec (prepareRequest h method_ endpoint opts) t (h', Ok req) ->
  exists boundary content,
    boundaries t = [boundary] /\
    exec (handleMultipartFormData fields (ReqOptions.files options)) t
      (Ok (content, multipart.FormDataContentType boundary)) /\
    http.Body req = Some content /\
    multipart.FormDataContentType boundary
      ∈ header.Values (http.Header req) "Content-Type" /\
    forall v, v ∈ header.Values (http.Header req) "Content-Type" ->
      v = multipart.FormDataContentType boundary \/
      exists k, k <> "Content-Type" /\
                ReqOptions.headers options !! k = Some v /\
                textproto.CanonicalMIMEHeaderKey k = "Content-Type".
Proof.
  intros options Hct Hp H.
  apply prepareRequest_inv in H as (encoded & Henc & H). fold options in Henc, H.
  destruct encoded as [[body hs] | e]; [| destruct H; discriminate].
  destruct (encodePayload_multipart _ _ _ _ _ Hct Hp Henc)
    as (boundary & content & Hm & Hb & -> & ->).
  destruct (NewRequest method_ endpoint (Some content)) as [req0 | e] eqn:Hnew;
    [| destruct H; discriminate].
  apply NewRequest_inv in Hnew as (_ & _ & _ & Hh0 & Hb0).
  destruct H as [Hreq _]. injection Hreq as ->. cbn [http.Header http.Body].
  rewrite lookup_insert_eq, Hh0.
  exists boundary, content.
  split; [exact Hb | split; [exact Hm | split; [exact Hb0 |]]].
  unfold header.Values. rewrite canonical_content_type, values_fold_Add, lookup_empty.
  cbn [default app]. split.
  - apply list_elem_of_In, in_map_iff.
    exists ("Content-Type", multipart.FormDataContentType boundary).
    split; [reflexivity |]. apply filter_In. split.
    + apply elem_of_range. apply lookup_insert_eq.
    + apply bool_decide_eq_true_2. apply canonical_content_type.
  - intros v Hin.
    apply list_elem_of_In, in_map_iff in Hin as ([k v1] & Hv & Hin).
    cbn in Hv. subst v1. apply filter_In in Hin as [Hin Hc].
    apply bool_decide_eq_true_1 in Hc. cbn in Hc.
    apply elem_of_range in Hin.
    destruct (decide (k = "Content-Type")) as [-> | Hne].
    + rewrite lookup_insert_eq in Hin. injection Hin as <-. left. reflexivity.
    + rewrite lookup_insert_ne in Hin by congruence. right. exists k.
      repeat split; assumption.
Qed.

(** ** [convertToXMLElements] *)

Lemma entryOf_elementOf {lib : GoLib} :
  forall (v : GoValue) (k : string),
    xmlShaped v = true -> entryOf (elementOf k v) = (k, v).
Proof.
  fix IH 1. intros v k Hs. destruct v as [| | | s | | | m | | |]; try discriminate Hs.
  - reflexivity.
  - cbn [elementOf entryOf xml.Local].
    assert (Hm : List.map entryOf (List.map (fun '(k0, x) => elementOf k0 x) m) = m).
    { cbn in Hs. destruct m as [| e m]; [discriminate |].
      revert Hs. generalize (e :: m). clear e m.
      fix IHm 1. intros l Hl. destruct l as [| [k0 x] l]; [reflexivity |].
      cbn in Hl. apply andb_true_iff in Hl as [Hx Hl].
      cbn [List.map]. rewrite (IH x k0 Hx). f_equal. apply IHm. exact Hl. }
    destruct m as [| e m]; [discriminate |].
    rewrite Hm. destruct e as [k0 x]. reflexivity.
Qed.

(** X16. On payloads made of strings and non-empty nested maps,
    [convertToXMLElements] loses nothing: it yields one element per
    entry, named by its key, in the order the entries are visited, and
    two such payloads that yield the same elements are the same. *)
Theorem convertToXMLElements_injective {lib : GoLib} (d1 d2 : list (string * GoValue)) :
  forallb (fun '(_, x) => xmlShaped x) d1 = true ->
  forallb (fun '(_, x) => xmlShaped x) d2 = true ->
  (List.map (fun e => fst (entryOf e)) (convertToXMLElements d1) = List.map fst d1) /\
  (convertToXMLElements d1 = convertToXMLElements d2 -> d1 = d2).
Proof.
  assert (Hback : forall d, forallb (fun '(_, x) => xmlShaped x) d = true ->
                            List.map entryOf (convertToXMLElements d) = d).
  { induction d as [| [k x] d IH]; intros Hd; [reflexivity |].
    cbn in Hd. apply andb_true_iff in Hd as [Hx Hd].
    cbn [convertToXMLElements List.map]. rewrite (entryOf_elementOf x k Hx).
    f_equal. apply IH. exact Hd. }
  intros H1 H2. split.
  - rewrite <- (Hback d1 H1) at 2. rewrite List.map_map. reflexivity.
  - intros Heq. rewrite <- (Hback d1 H1), <- (Hback d2 H2), Heq. reflexivity.
Qed.

(** X17. In the application/xml case, with a payload or files present,
    [prepareRequest] performs no effect; it fails with the shape error
    when the payload is not a [map[string]interface{}], with the error
    of [xml.MarshalIndent] when that fails, and otherwise the body is
    what [xml.MarshalIndent] wrote for the converted elements, with the
    empty prefix and a two-space indent. In the default case, an error
    of [json.Marshal] is the error of the preparation. A failed
    preparation leaves the client as it was. *)
Theorem encoding_failures {lib : GoLib} (h : easyRequest.t) (method_ endpoint : string)
    (opts : list TReqOption) t h' res :
  let options := applyOpts opts freshOptions in
  isNil (ReqOptions.payload options) = false \/ ReqOptions.files options <> None ->
  exec (prepareRequest h method_ endpoint opts) t (h', res) ->
  (ReqOptions.headers options !! "Content-Type" = Some "application/xml" ->
     t = [] /\
     match asMapStrAny (ReqOptions.payload options) with
     | None =>
         res = Err "payload should be a map[string]interface{} for application/xml" /\
         h' = h
     | Some data =>
         match xml_MarshalIndent (convertToXMLElements data) "" "  " with
         | Err err => res = Err err /\ h' = h
         | Ok byts => forall req, res = Ok req -> http.Body req = Some byts
         end
     end) /\
  (ReqOptions.headers options !! "Content-Type" = None \/
   ReqOptions.headers options !! "Content-Type" = Some "application/json" ->
   forall err, json.MarshalDoc (ReqOptions.payload options) = Err err ->
     t = [] /\ res = Err err /\ h' = h).
Proof.
  intros options Hpresent H.
  apply prepareRequest_inv in H as (encoded & Henc & H). fold options in Henc, H.
  assert (Hcond : negb (isNil (ReqOptions.payload options))
                  || bool_decide (ReqOptions.files options <> None) = true).
  { destruct Hpresent as [-> | Hf]; [reflexivity |].
    rewrite (bool_decide_eq_true_2 _ Hf). apply orb_true_r. }
  unfold encodePayload in Henc. rewrite Hcond in Henc.
  split.
  - intros Hct. rewrite Hct in Henc. cbn in Henc. unfold handleXMLData in Henc.
    destruct (asMapStrAny (ReqOptions.payload options)) as [data |].
    + destruct (xml_MarshalIndent (convertToXMLElements data) "" "  ") as [byts | err].
      * destruct Henc as [-> ->]. split; [reflexivity |].
        intros req Hreq.
        destruct (NewRequest method_ endpoint (Some byts)) as [req0 | e] eqn:Hnew;
          [| destruct H; congruence].
        apply NewRequest_inv in Hnew as (_ & _ & _ & _ & Hb).
        destruct H as [Hres _]. rewrite Hres in Hreq. injection Hreq as <-. exact Hb.
      * destruct Henc as [-> ->]. destruct H as [-> ->]. repeat split; reflexivity.
    + destruct Henc as [-> ->]. destruct H as [-> ->]. repeat split; reflexivity.
  - intros Hct err Herr. unfold json_Marshal in Henc. rewrite Herr in Henc.
    destruct Hct as [Hct | Hct]; rewrite Hct in Henc; cbn in Henc;
      destruct Henc as [-> ->]; destruct H as [-> ->]; repeat split; reflexivity.
Qed.

(** ** The options *)

Lemma default_last_cons {A : Type} (l : list A) (x before : A) :
  default before (last (x :: l)) = default x (last l).
Proof.
  revert x before. induction l as [| a l IH]; intros x before; [reflexivity |].
  change (last (x :: a :: l)) with (last (a :: l)).
  rewrite (IH a before), (IH a x). reflexivity.
Qed.

Lemma lastGiven_cons_Some {O A : Type} (given : O -> option A) (o : O) (opts : list O)
    (x before : A) :
  given o = Some x -> lastGiven given (o :: opts) before = lastGiven given opts x.
Proof.
  intros Hg. unfold lastGiven. cbn. rewrite Hg. apply default_last_cons.
Qed.

Lemma lastGiven_cons_None {O A : Type} (given : O -> option A) (o : O) (opts : list O)
    (before : A) :
  given o = None -> lastGiven given (o :: opts) before = lastGiven given opts before.
Proof. intros Hg. unfold lastGiven. cbn. rewrite Hg. reflexivity. Qed.

(** X18. Options are applied in order and each one overwrites one
    setting wholesale: after any list of options every setting holds
    what the last option of its kind gave, or what it held before when
    there is none. Two [WithHeaders] do not merge, and an option of one
    kind never disturbs a setting of another. *)
Theorem last_option_wins (opts : list ReqOpt) (o : ReqOptions.t) :
  let options := applyOpts (List.map reqOption opts) o in
  ReqOptions.queries options = lastGiven givenQueries opts (ReqOptions.queries o) /\
  ReqOptions.headers options = lastGiven givenHeaders opts (ReqOptions.headers o) /\
  ReqOptions.payload options = lastGiven givenPayload opts (ReqOptions.payload o) /\
  ReqOptions.files options = lastGiven givenFiles opts (ReqOptions.files o) /\
  ReqOptions.cacheObj options = lastGiven givenCache opts (ReqOptions.cacheObj o).
Proof.
  revert o. induction opts as [| a opts IH]; intros o.
  - repeat split; reflexivity.
  - specialize (IH (reqOption a o)). cbn zeta in IH.
    destruct IH as (Hq & Hh & Hp & Hf & Hc). cbn zeta.
    unfold applyOpts in *. cbn [List.map fold_left].
    rewrite Hq, Hh, Hp, Hf, Hc.
    destruct a as [q | hs | p | f | c per idem]; cbn [reqOption].
    + rewrite (lastGiven_cons_Some givenQueries _ _ q) by reflexivity.
      rewrite !lastGiven_cons_None by reflexivity. repeat split; reflexivity.
    + rewrite (lastGiven_cons_Some givenHeaders _ _ hs) by reflexivity.
      rewrite !lastGiven_cons_None by reflexivity. repeat split; reflexivity.
    + rewrite (lastGiven_cons_Some givenPayload _ _ p) by reflexivity.
      rewrite !lastGiven_cons_None by reflexivity. repeat split; reflexivity.
    + rewrite (lastGiven_cons_Some givenFiles _ _ f) by reflexivity.
      rewrite !lastGiven_cons_None by reflexivity. repeat split; reflexivity.
    + rewrite (lastGiven_cons_Some givenCache _ _ (Some (mkCacheObj c per idem)))
        by reflexivity.
      rewrite !lastGiven_cons_None by reflexivity. repeat split; reflexivity.
Qed.

(** X19. [NewHttpClient] starts from three retries, a one-second wait
    ceiling and no logger, lets the last option of each kind replace
    them, and copies the three settings it ends with into the retrying
    client. The client it returns is bound to the endpoint and the
    handle it was given and has no cache binding. *)
Theorem new_client_settings (client : Client) (endpoint : string) (opts : list HttpOpt) :
  let made := NewHttpClient client endpoint (List.map httpOption opts) in
  easyRequest.maxRetry (fst made) = lastGiven givenRetry opts 3%Z /\
  easyRequest.retryWaitMax (fst made) = lastGiven givenWait opts second /\
  easyRequest.logger (fst made) = lastGiven givenLogger opts NoLogger /\
  snd made = (easyRequest.maxRetry (fst made), easyRequest.retryWaitMax (fst made),
              easyRequest.logger (fst made)) /\
  easyRequest.endpoint (fst made) = endpoint /\
  easyRequest.client (fst made) = client /\
  easyRequest.forceCache (fst made) = false /\
  binding (fst made) = None.
Proof.
  assert (Hgen : forall (opts : list HttpOpt) (o : easyRequest.t),
             let c := applyOpts (List.map httpOption opts) o in
             easyRequest.maxRetry c = lastGiven givenRetry opts (easyRequest.maxRetry o) /\
             easyRequest.retryWaitMax c
               = lastGiven givenWait opts (easyRequest.retryWaitMax o) /\
             easyRequest.logger c = lastGiven givenLogger opts (easyRequest.logger o) /\
             easyRequest.endpoint c = easyRequest.endpoint o /\
             easyRequest.client c = easyRequest.client o /\
             easyRequest.forceCache c = easyRequest.forceCache o /\
             easyRequest.cacheObj c = easyRequest.cacheObj o).
  { clear. induction opts as [| a opts IH]; intros o.
    - repeat split; reflexivity.
    - specialize (IH (httpOption a o)). cbn zeta in IH.
      destruct IH as (Hr & Hw & Hl & He & Hc & Hf & Hb). cbn zeta.
      unfold applyOpts in *. cbn [List.map fold_left].
      rewrite Hr, Hw, Hl, He, Hc, Hf, Hb.
      destruct a as [n | w | lg]; cbn [httpOption].
      + rewrite (lastGiven_cons_Some givenRetry _ _ n) by reflexivity.
        rewrite !lastGiven_cons_None by reflexivity. repeat split; reflexivity.
      + rewrite (lastGiven_cons_Some givenWait _ _ w) by reflexivity.
        rewrite !lastGiven_cons_None by reflexivity. repeat split; reflexivity.
      + rewrite (lastGiven_cons_Some givenLogger _ _ lg) by reflexivity.
        rewrite !lastGiven_cons_None by reflexivity. repeat split; reflexivity. }
  cbn zeta. unfold NewHttpClient. cbn [fst snd].
  destruct (Hgen opts (easyRequest.mk false None endpoint client 3 (1 * second) NoLogger))
    as (Hr & Hw & Hl & He & Hc & Hf & Hb).
  cbn zeta in *. cbn [easyRequest.maxRetry easyRequest.retryWaitMax easyRequest.logger
                      easyRequest.endpoint easyRequest.client easyRequest.forceCache
                      easyRequest.cacheObj] in *.
  repeat split; try assumption.
  unfold binding. rewrite Hb. reflexivity.
Qed.

(** X20. Files are only read in the multipart case. With a payload or
    files present and a declared content type that is none of
    application/x-www-form-urlencoded, multipart/form-data and
    application/xml, [prepareRequest] opens no file and performs no
    other effect, and the body of the request it builds is the JSON of
    the payload, whatever the content type says: JSON null when only
    files were given. *)
Theorem other_content_types_send_json {lib : GoLib} (h : easyRequest.t)
    (method_ endpoint : string) (opts : list TReqOption) t h' req :
  let options := applyOpts opts freshOptions in
  let contentType := default "" (ReqOptions.headers options !! "Content-Type") in
  isNil (ReqOptions.payload options) = false \/ ReqOptions.files options <> None ->
  contentType <> "application/x-www-form-urlencoded" ->
  contentType <> "multipart/form-data" ->
  contentType <> "application/xml" ->
  exec (prepareRequest h method_ endpoint opts) t (h', Ok req) ->
  t = [] /\
  (exists doc, json.MarshalDoc (ReqOptions.payload options) = Ok doc /\
               http.Body req = Some (json_render doc)) /\
  (ReqOptions.payload options = VNil -> http.Body req = Some (json_render JNull)).
Proof.
  intros options contentType Hpresent Hform Hmulti Hxml H.
  apply prepareRequest_inv in H as (encoded & Henc & H). fold options in Henc, H.
  assert (Hcond : negb (isNil (ReqOptions.payload options))
                  || bool_decide (ReqOptions.files options <> None) = true).
  { destruct Hpresent as [-> | Hf]; [reflexivity |].
    rewrite (bool_decide_eq_true_2 _ Hf). apply orb_true_r. }
  unfold encodePayload in Henc. rewrite Hcond in Henc. fold contentType in Henc.
  rewrite !decide_False in Henc by assumption.
  unfold json_Marshal in Henc.
  destruct (json.MarshalDoc (ReqOptions.payload options)) as [doc | err] eqn:Hdoc;
    cbn in Henc; destruct Henc as [-> ->]; [| destruct H; discriminate].
  destruct (NewRequest method_ endpoint (Some (json_render doc))) as [req0 | e] eqn:Hnew;
    [| destruct H; discriminate].
  apply NewRequest_inv in Hnew as (_ & _ & _ & _ & Hb).
  destruct H as [Hreq _]. injection Hreq as ->. cbn [http.Body].
  split; [reflexivity | split].
  - exists doc. split; [reflexivity | exact Hb].
  - intros Hnil. rewrite Hnil in Hdoc. cbn in Hdoc. injection Hdoc as <-. exact Hb.
Qed.

(** ** The extras at the calls of the tests *)

Lemma no_payload_no_body_witness :
  exists h' req,
    resultOf Scenario.getForm = (h', Ok req) /\
    traceOf Scenario.getForm = [] /\
    http.Body req = None.
Proof.
  destruct (resultOf Scenario.getForm) as [h' res] eqn:Hres.
  pose proof (run_exec Scenario.emptyDisk
                (prepareRequest (lib := Plain.lib) Example.call "GET"
                   "http://localhost:9000/form"
                   [WithHeaders {["Content-Type" := "application/x-www-form-urlencoded"]}])
                boot) as Hx.
  fold Scenario.getForm in Hx. rewrite Hres in Hx.
  destruct res as [req | e]; [| vm_compute in Hres; discriminate Hres].
  exists h', req. split; [reflexivity |].
  destruct (no_payload_no_body (lib := Plain.lib) Example.call "GET"
              "http://localhost:9000/form"
              [WithHeaders {["Content-Type" := "application/x-www-form-urlencoded"]}]
              _ _ _ eq_refl eq_refl Hx)
    as (Ht & Hb & _).
  split; [exact Ht | apply Hb; reflexivity].
Defined.

Lemma envelope_method_witness :
  exists h' envelope,
    resultOf Scenario.emptyMethod = (h', Returned (Some envelope, None)) /\
    FromCache envelope = false /\
    Method envelope = "GET".
Proof.
  destruct (resultOf Scenario.emptyMethod) as [h' out] eqn:Hres.
  pose proof (run_exec Scenario.emptyDisk
                (Custom (lib := Plain.lib) Example.call "" [Example.headers]) boot) as Hx.
  fold Scenario.emptyMethod in Hx. rewrite Hres in Hx.
  destruct out as [[[envelope |] [err |]] | msg];
    try (vm_compute in Hres; discriminate Hres).
  exists h', envelope. split; [reflexivity |].
  assert (Hfc : FromCache envelope = false)
    by (vm_compute in Hres; injection Hres as _ <-; reflexivity).
  split; [exact Hfc |].
  rewrite (envelope_method (lib := Plain.lib) _ _ _ _ _ _ _ Hx), Hfc. reflexivity.
Defined.

Lemma request_construction_failure_witness :
  validMethod "GET IT" = false /\
  (exists e, snd (resultOf Scenario.badMethod) = Returned (None, Some e)) /\
  fst (resultOf Scenario.badMethod) = Example.call /\
  doCount (traceOf Scenario.badMethod) = 0.
Proof.
  split; [reflexivity |].
  destruct (resultOf Scenario.badMethod) as [h' out] eqn:Hres.
  pose proof (run_exec Scenario.emptyDisk
                (Custom (lib := Plain.lib) Example.call "GET IT"
                   [Example.headers; Example.caching]) boot) as Hx.
  fold Scenario.badMethod in Hx. rewrite Hres in Hx.
  destruct (request_construction_failure (lib := Plain.lib) Example.call "GET IT"
              [Example.headers; Example.caching] _ _ _
              (or_introl eq_refl) Hx) as (He & Hh & Hd & _).
  split; [exact He | split; [exact Hh | exact Hd]].
Defined.

Lemma binding_attached_witness :
  exists h' req,
    resultOf Scenario.cachedGet = (h', Ok req) /\
    binding Example.call = None /\
    binding h' = Some (Example.theCache, Example.json5).
Proof.
  destruct (resultOf Scenario.cachedGet) as [h' res] eqn:Hres.
  pose proof (run_exec Scenario.emptyDisk
                (prepareRequest (lib := Plain.lib) Example.call "GET" Example.endpoint
                   [Example.headers; Example.caching]) boot) as Hx.
  fold Scenario.cachedGet in Hx. rewrite Hres in Hx.
  destruct res as [req | e]; [| vm_compute in Hres; discriminate Hres].
  exists h', req. split; [reflexivity | split; [reflexivity |]].
  destruct (binding_attached (lib := Plain.lib) _ _ _ _ _ _ _ Hx) as (_ & _ & _ & Hb).
  destruct (Hb Example.json5 Example.theCache req eq_refl eq_refl eq_refl) as [Hbind _].
  exact Hbind.
Defined.

Lemma headers_carried_witness :
  exists h' req,
    resultOf Scenario.cachedGet = (h', Ok req) /\
    "application/json" ∈ header.Values (http.Header req) "Content-Type".
Proof.
  destruct (resultOf Scenario.cachedGet) as [h' res] eqn:Hres.
  pose proof (run_exec Scenario.emptyDisk
                (prepareRequest (lib := Plain.lib) Example.call "GET" Example.endpoint
                   [Example.headers; Example.caching]) boot) as Hx.
  fold Scenario.cachedGet in Hx. rewrite Hres in Hx.
  destruct res as [req | e]; [| vm_compute in Hres; discriminate Hres].
  exists h', req. split; [reflexivity |].
  destruct (headers_carried (lib := Plain.lib) _ _ _ _ _ _ _ Hx) as [Hc _].
  - vm_compute. discriminate.
  - apply Hc. reflexivity.
Defined.


Lemma form_body_witness :
  exists h' req,
    resultOf Scenario.postForm = (h', Ok req) /\
    traceOf Scenario.postForm = [] /\
    http.Body req
    = Some (list_byte_of_string "age=30&email=example@example.com&name=morpheus").
Proof.
  destruct (resultOf Scenario.postForm) as [h' res] eqn:Hres.
  pose proof (run_exec Scenario.emptyDisk
                (prepareRequest (lib := Plain.lib) Example.call "POST"
                   "http://localhost:9000/form" Scenario.formOpts) boot) as Hx.
  fold Scenario.postForm in Hx. rewrite Hres in Hx.
  destruct res as [req | e]; [| vm_compute in Hres; discriminate Hres].
  exists h', req. split; [reflexivity |].
  destruct (form_body (lib := Plain.lib) Example.call "POST"
              "http://localhost:9000/form" Scenario.formOpts
              Scenario.multipartPayload _ _ _ eq_refl eq_refl Hx) as [Ht Hb].
  split; [exact Ht |]. rewrite Hb. vm_compute. reflexivity.
Defined.

Lemma files_closed_witness :
  opened_ (traceOf Scenario.writeMultipart) = [0] /\
  fileCloses (traceOf Scenario.writeMultipart) = [0].
Proof.
  split; [reflexivity |].
  destruct (files_closed (lib := Plain.lib) Scenario.multipartPayload
              (Some Scenario.theFiles) (traceOf Scenario.writeMultipart)
              (resultOf Scenario.writeMultipart) (run_exec _ _ _)) as [Hc _].
  exact Hc.
Defined.

Lemma multipart_result_witness :
  resultOf Scenario.writeMissing
  = Err "failed to open file example/img.png: open example/img.png: no such file or directory" /\
  exists boundary,
    boundaries (traceOf Scenario.writeMissing) = [boundary] /\
    ((exists path err,
         last (opens (traceOf Scenario.writeMissing)) = Some (path, Err err) /\
         "failed to open file example/img.png: open example/img.png: no such file or directory"
         = "failed to open file " ++ path ++ ": " ++ err) \/
     (exists f,
         last (copies (traceOf Scenario.writeMissing))
         = Some (f, Err "failed to open file example/img.png: open example/img.png: no such file or directory"))).
Proof.
  assert (Hres : resultOf Scenario.writeMissing
                 = Err "failed to open file example/img.png: open example/img.png: no such file or directory")
    by (vm_compute; reflexivity).
  split; [exact Hres |].
  pose proof (run_exec Scenario.emptyDisk
                (handleMultipartFormData (lib := Plain.lib) Scenario.multipartPayload
                   (Some Scenario.theFiles)) boot) as Hx.
  fold Scenario.writeMissing in Hx. rewrite Hres in Hx.
  destruct (multipart_result (lib := Plain.lib) _ _ _ _ Hx) as (boundary & Hb & _ & Hr).
  exists boundary. split; [exact Hb | exact Hr].
Defined.

Lemma multipart_content_type_witness :
  exists h' req boundary,
    resultOf Scenario.postMultipart = (h', Ok req) /\
    boundaries (traceOf Scenario.postMultipart) = [boundary] /\
    multipart.FormDataContentType boundary
      ∈ header.Values (http.Header req) "Content-Type".
Proof.
  destruct (resultOf Scenario.postMultipart) as [h' res] eqn:Hres.
  pose proof (run_exec Scenario.world
                (prepareRequest (lib := Plain.lib) Example.call "POST"
                   "http://localhost:9000/multipart" Scenario.multipartOpts) boot) as Hx.
  fold Scenario.postMultipart in Hx. rewrite Hres in Hx.
  destruct res as [req | e]; [| vm_compute in Hres; discriminate Hres].
  destruct (multipart_content_type (lib := Plain.lib) Example.call "POST"
              "http://localhost:9000/multipart" Scenario.multipartOpts
              Scenario.multipartPayload _ _ _ eq_refl eq_refl Hx)
    as (boundary & content & Hb & _ & _ & Hin & _).
  exists h', req, boundary. split; [reflexivity | split; [exact Hb | exact Hin]].
Defined.

Lemma convertToXMLElements_injective_witness :
  forallb (fun '(_, x) => xmlShaped x) Scenario.complexPayload = true /\
  List.map (fun e => fst (entryOf e))
    (convertToXMLElements (lib := Plain.lib) Scenario.complexPayload) = ["person"].
Proof.
  split; [reflexivity |].
  apply (convertToXMLElements_injective (lib := Plain.lib)
           Scenario.complexPayload Scenario.complexPayload eq_refl eq_refl).
Defined.

Lemma encoding_failures_witness :
  ReqOptions.headers (applyOpts Scenario.xmlOpts freshOptions) !! "Content-Type"
    = Some "application/xml" /\
  asMapStrAny (ReqOptions.payload (applyOpts Scenario.xmlOpts freshOptions)) = None /\
  traceOf Scenario.postXmlWrong = [] /\
  resultOf Scenario.postXmlWrong
  = (Example.call, Err "payload should be a map[string]interface{} for application/xml").
Proof.
  split; [reflexivity | split; [reflexivity |]].
  destruct (resultOf Scenario.postXmlWrong) as [h' res] eqn:Hres.
  pose proof (run_exec Scenario.emptyDisk
                (prepareRequest (lib := Plain.lib) Example.call "POST"
                   "http://localhost:9000/xml" Scenario.xmlOpts) boot) as Hx.
  fold Scenario.postXmlWrong in Hx. rewrite Hres in Hx.
  destruct (encoding_failures (lib := Plain.lib) Example.call "POST"
              "http://localhost:9000/xml" Scenario.xmlOpts _ _ _
              (or_introl eq_refl) Hx) as [Hxml _].
  destruct (Hxml eq_refl) as (Ht & Hr & Hh).
  split; [exact Ht |]. rewrite Hr, Hh. reflexivity.
Defined.

Lemma other_content_types_send_json_witness :
  exists h' req,
    resultOf Scenario.filesOnly = (h', Ok req) /\
    traceOf Scenario.filesOnly = [] /\
    http.Body req = Some (list_byte_of_string "null").
Proof.
  destruct (resultOf Scenario.filesOnly) as [h' res] eqn:Hres.
  pose proof (run_exec Scenario.world
                (prepareRequest (lib := Plain.lib) Example.call "POST" Example.endpoint
                   [WithFiles (Some Scenario.theFiles)]) boot) as Hx.
  fold Scenario.filesOnly in Hx. rewrite Hres in Hx.
  destruct res as [req | e]; [| vm_compute in Hres; discriminate Hres].
  exists h', req. split; [reflexivity |].
  assert (Hct : default "" (ReqOptions.headers
                              (applyOpts [WithFiles (Some Scenario.theFiles)] freshOptions)
                            !! "Content-Type") = "") by reflexivity.
  assert (Hfiles : ReqOptions.files
                     (applyOpts [WithFiles (Some Scenario.theFiles)] freshOptions) <> None)
    by (cbn; discriminate).
  set (opts := [WithFiles (Some Scenario.theFiles)]) in *.
  assert (Hform : default "" (ReqOptions.headers (applyOpts opts freshOptions)
                              !! "Content-Type") <> "application/x-www-form-urlencoded")
    by (rewrite Hct; discriminate).
  assert (Hmulti : default "" (ReqOptions.headers (applyOpts opts freshOptions)
                               !! "Content-Type") <> "multipart/form-data")
    by (rewrite Hct; discriminate).
  assert (Hxml : default "" (ReqOptions.headers (applyOpts opts freshOptions)
                             !! "Content-Type") <> "application/xml")
    by (rewrite Hct; discriminate).
  destruct (other_content_types_send_json (lib := Plain.lib) Example.call "POST"
              Example.endpoint opts _ _ _ (or_intror Hfiles) Hform Hmulti Hxml Hx)
    as (Ht & _ & Hn).
  split; [exact Ht | apply Hn; reflexivity].
Defined.

